(** * Verification model of the analytics engine of herflowstate-pwa

    Source: [src/src/utils/goalOptimization.ts] (classes [GoalOptimizer] and
    [MoodAnalytics]) and the record types of [src/src/types/goals.ts] and
    [src/src/types/mood-tracker.ts].

    Modelling choices.
    - A JavaScript [number] is a [JsNum.number]: a finite value, stated over
      exact real arithmetic, or one of the IEEE special values +Infinity,
      -Infinity and NaN.  The special values follow IEEE 754 ([0/0] is NaN,
      [x/0] is an infinity, every comparison with NaN is false); the sign of
      zero is not tracked.
    - A [Date] is its [getTime()] value: an integer number of milliseconds.
      A [MoodEntry.date] string is represented by the timestamp
      [new Date(entry.date).getTime()] it parses to.
    - Arrays passed by reference live in a store ([Store]), so that the
      in-place [Array.prototype.sort] is visible to the caller.
    - [Array.prototype.sort] is a stable sort; with a consistent comparator
      its result is the unique stable sorted permutation, computed here by
      insertion sort.  A comparator returning NaN counts as returning 0. *)

From Stdlib Require Import Strings.String.
From Stdlib Require Import Reals Lra Psatz List ZArith Bool Permutation Sorted.
Import ListNotations.
(** [Strings.String] exports its own [length]; lists keep the prelude one. *)
From Stdlib Require Import Init.Datatypes.
Open Scope R_scope.

(** ** JavaScript numbers *)
Module JsNum.

Inductive number : Type :=
| Num (r : R)
| Inf (neg : bool)
| NaN.

(** [true] when a finite value is negative (the sign bit of an infinity
    produced from it). *)
Definition negR (r : R) : bool := if Rlt_dec r 0 then true else false.

Definition add (x y : number) : number :=
  match x, y with
  | Num a, Num b => Num (a + b)
  | Num _, Inf s | Inf s, Num _ => Inf s
  | Inf s, Inf t => if Bool.eqb s t then Inf s else NaN
  | _, _ => NaN
  end.

Definition opp (x : number) : number :=
  match x with
  | Num a => Num (- a)
  | Inf s => Inf (negb s)
  | NaN => NaN
  end.

Definition sub (x y : number) : number := add x (opp y).

Definition mul (x y : number) : number :=
  match x, y with
  | Num a, Num b => Num (a * b)
  | Num a, Inf s | Inf s, Num a =>
      if Req_EM_T a 0 then NaN else Inf (xorb s (negR a))
  | Inf s, Inf t => Inf (xorb s t)
  | _, _ => NaN
  end.

Definition div (x y : number) : number :=
  match x, y with
  | Num a, Num b =>
      if Req_EM_T b 0
      then (if Req_EM_T a 0 then NaN else Inf (negR a))
      else Num (a / b)
  | Num _, Inf _ => Num 0
  | Inf s, Num b => Inf (xorb s (negR b))
  | _, _ => NaN
  end.

(** [x < y] *)
Definition lt (x y : number) : bool :=
  match x, y with
  | Num a, Num b => if Rlt_dec a b then true else false
  | Num _, Inf s => negb s
  | Inf true, Num _ => true
  | Inf true, Inf false => true
  | _, _ => false
  end.

(** [x <= y] *)
Definition le (x y : number) : bool :=
  match x, y with
  | NaN, _ | _, NaN => false
  | _, _ => negb (lt y x)
  end.

(** [x === y] *)
Definition eqb (x y : number) : bool :=
  match x, y with
  | Num a, Num b => if Req_EM_T a b then true else false
  | Inf s, Inf t => Bool.eqb s t
  | _, _ => false
  end.

(** [Math.max(x, y)] and [Math.min(x, y)] *)
Definition max (x y : number) : number :=
  match x, y with
  | NaN, _ | _, NaN => NaN
  | _, _ => if lt x y then y else x
  end.

Definition min (x y : number) : number :=
  match x, y with
  | NaN, _ | _, NaN => NaN
  | _, _ => if lt y x then y else x
  end.

(** [Math.max(...xs)] and [Math.min(...xs)] *)
Definition max_list (xs : list number) : number := fold_left max xs (Inf true).
Definition min_list (xs : list number) : number := fold_left min xs (Inf false).

Definition abs (x : number) : number :=
  match x with
  | Num a => Num (Rabs a)
  | Inf _ => Inf false
  | NaN => NaN
  end.

Definition sqrt (x : number) : number :=
  match x with
  | Num a => if Rlt_dec a 0 then NaN else Num (R_sqrt.sqrt a)
  | Inf false => Inf false
  | _ => NaN
  end.

Definition exp (x : number) : number :=
  match x with
  | Num a => Num (Rtrigo_def.exp a)
  | Inf false => Inf false
  | Inf true => Num 0
  | NaN => NaN
  end.

Definition log (x : number) : number :=
  match x with
  | Num a =>
      if Rlt_dec 0 a then Num (ln a)
      else if Req_EM_T a 0 then Inf true else NaN
  | Inf false => Inf false
  | _ => NaN
  end.

End JsNum.

Import JsNum.

(** ** [Array.prototype.sort] and arrays shared by reference *)
Module ArraySort.
Section Sort.
Variable A : Type.
(** [before a b]: the comparator's result [cmp(a, b)] is [<= 0] (or NaN),
    so [a] may stay in front of [b]. *)
Variable before : A -> A -> bool.

Fixpoint insert (x : A) (ys : list A) : list A :=
  match ys with
  | [] => [x]
  | y :: ys' => if before x y then x :: ys else y :: insert x ys'
  end.

Fixpoint sort (xs : list A) : list A :=
  match xs with
  | [] => []
  | x :: xs' => insert x (sort xs')
  end.
End Sort.
Arguments insert {A} before x ys.
Arguments sort {A} before xs.

(** A comparator returning a number: [a] may precede [b] unless
    [cmp(a, b) > 0]. *)
Definition of_cmp {A} (cmp : A -> A -> number) (a b : A) : bool :=
  negb (lt (Num 0) (cmp a b)).
End ArraySort.

(** The arrays of the caller, addressed by reference. *)
Module Store.
Definition loc := nat.
Definition t (A : Type) := loc -> list A.
Definition set {A} (st : t A) (l : loc) (v : list A) : t A :=
  fun l' => if Nat.eqb l l' then v else st l'.
(** [arr.sort(cmp)] reorders [arr] itself and returns the same reference. *)
Definition sort_in_place {A} (before : A -> A -> bool) (st : t A) (l : loc)
  : t A * loc :=
  (set st l (ArraySort.sort before (st l)), l).
End Store.

(** Milliseconds per day, [1000 * 60 * 60 * 24]. *)
Definition msPerDay : number := Num 86400000.

(** [arr.reduce((sum, val) => sum + val, 0)] *)
Definition sum (xs : list number) : number := fold_left add xs (Num 0).

(** [arr[i]] in an arithmetic expression: [undefined] converts to NaN. *)
Definition at_ (xs : list number) (i : nat) : number :=
  match nth_error xs i with Some v => v | None => NaN end.

(** [x.reduce((sum, val, i) => sum + f(val, i), 0)] *)
Fixpoint reduce_idx (f : number -> nat -> number) (i : nat) (xs : list number)
    (acc : number) : number :=
  match xs with
  | [] => acc
  | v :: xs' => reduce_idx f (S i) xs' (add acc (f v i))
  end.

(** [Math.pow(v, 2)] *)
Definition pow2 (v : number) : number := mul v v.

(** Consecutive pairs [(xs[i-1], xs[i])] for [i = 1 .. xs.length - 1]. *)
Fixpoint adjacent {A} (xs : list A) : list (A * A) :=
  match xs with
  | x :: ((y :: _) as rest) => (x, y) :: adjacent rest
  | _ => []
  end.

(** ** Goals ([src/src/types/goals.ts]) and [GoalOptimizer] *)
Module Goals.

(** The fields of [Goal] the optimizer reads; dates are [getTime()] values. *)
Record Goal := mkGoal {
  targetValue : R;
  currentValue : R;
  deadline : Z;
  createdAt : Z
}.

Record GoalProgress := mkProgress {
  date : Z;
  value : R
}.

(** [projectedCompletion] is the time value passed to [new Date(...)]. *)
Record GoalMetrics := mkMetrics {
  completionRate : number;
  timeRemaining : number;
  averageDailyProgress : number;
  projectedCompletion : number;
  efficiencyScore : number;
  consistencyScore : number
}.

Inductive Bottleneck :=
| LowProgressRate | HighVariability | TimeConstraint | ProgressStagnation.

Inductive RecommendationType := increase_frequency | add_support | adjust_target.

Record OptimizationRecommendation := mkRecommendation {
  rec_type : RecommendationType;
  priority : nat;
  expectedImprovement : R
}.

(** The single hard-coded entry of [calculateCorrelations]
    ('Daily Progress' / 'Mood Score'). *)
Record GoalCorrelation := mkGoalCorrelation {
  correlation : R;
  significance : R
}.

Record OptimizationAnalysis := mkAnalysis {
  currentEfficiency : number;
  bottlenecks : list Bottleneck;
  recommendations : list OptimizationRecommendation;
  correlationMatrix : list GoalCorrelation
}.

(** [(a, b) => a.date.getTime() - b.date.getTime()] *)
Definition by_date (a b : GoalProgress) : bool :=
  ArraySort.of_cmp (fun a b => Num (IZR (date a - date b))) a b.

(** The loop of [calculateAverageDailyProgress] over the sorted samples,
    returning [(totalProgress, totalDays)]. *)
Definition progress_totals (sorted : list GoalProgress) : number * number :=
  fold_left
    (fun '(totalProgress, totalDays) '(prev, cur) =>
       let progress := Num (value cur - value prev) in
       let days := div (Num (IZR (date cur - date prev))) msPerDay in
       if lt (Num 0) days
       then (add totalProgress progress, add totalDays days)
       else (totalProgress, totalDays))
    (adjacent sorted) (Num 0, Num 0).

Definition calculateAverageDailyProgress (st : Store.t GoalProgress)
    (progressData : Store.loc) : Store.t GoalProgress * number :=
  if Nat.ltb (length (st progressData)) 2 then (st, Num 0) else
  let '(st1, sortedData) := Store.sort_in_place by_date st progressData in
  let '(totalProgress, totalDays) := progress_totals (st1 sortedData) in
  (st1, if lt (Num 0) totalDays then div totalProgress totalDays else Num 0).

(** [dailyChanges] of [calculateConsistencyScore]: positive-only deltas. *)
Definition dailyChanges (sorted : list GoalProgress) : list number :=
  map (fun '(prev, cur) => max (Num 0) (Num (value cur - value prev)))
    (adjacent sorted).

(** The score computed from [dailyChanges]. *)
Definition consistency_of_changes (changes : list number) : number :=
  let len := Num (INR (length changes)) in
  let mean := div (sum changes) len in
  let variance :=
    div (fold_left (fun s v => add s (pow2 (sub v mean))) changes (Num 0)) len in
  let stdDev := sqrt variance in
  let cv := if lt (Num 0) mean then div stdDev mean else Num 1 in
  max (Num 0) (sub (Num 100) (mul cv (Num 100))).

Definition calculateConsistencyScore (st : Store.t GoalProgress)
    (progressData : Store.loc) : Store.t GoalProgress * number :=
  if Nat.ltb (length (st progressData)) 3 then (st, Num 50) else
  let '(st1, sortedData) := Store.sort_in_place by_date st progressData in
  (st1, consistency_of_changes (dailyChanges (st1 sortedData))).

(** [theoreticalRate] of [calculateGoalMetrics]: target over planned days. *)
Definition theoreticalRate (goal : Goal) : number :=
  div (Num (targetValue goal)) (div (Num (IZR (deadline goal - createdAt goal))) msPerDay).

(** [now] is the value of [new Date().getTime()] read by the call. *)
Definition calculateGoalMetrics (now : Z) (goal : Goal) (st : Store.t GoalProgress)
    (progressData : Store.loc) : Store.t GoalProgress * GoalMetrics :=
  let timeElapsed := Num (IZR (now - createdAt goal)) in
  let timeRemaining :=
    div (max (Num 0) (Num (IZR (deadline goal - now)))) msPerDay in
  let completionRate :=
    mul (div (Num (currentValue goal)) (Num (targetValue goal))) (Num 100) in
  let '(st1, dailyProgress) :=
    if Nat.ltb 1 (length (st progressData))
    then calculateAverageDailyProgress st progressData
    else (st, div (Num (currentValue goal)) (div timeElapsed msPerDay)) in
  let projectedDays :=
    div (Num (targetValue goal - currentValue goal)) (max dailyProgress (Num 0.001)) in
  let projectedCompletion :=
    add (Num (IZR now))
      (mul (mul (mul (mul projectedDays (Num 24)) (Num 60)) (Num 60)) (Num 1000)) in
  let efficiencyScore :=
    min (Num 100) (mul (div dailyProgress (theoreticalRate goal)) (Num 100)) in
  let '(st2, consistencyScore) := calculateConsistencyScore st1 progressData in
  (st2, {| completionRate := completionRate;
           timeRemaining := timeRemaining;
           averageDailyProgress := dailyProgress;
           projectedCompletion := projectedCompletion;
           efficiencyScore := efficiencyScore;
           consistencyScore := consistencyScore |}).

Definition identifyBottlenecks (now : Z) (metrics : GoalMetrics)
    (progressData : list GoalProgress) : list Bottleneck :=
  let b1 := if lt (efficiencyScore metrics) (Num 50) then [LowProgressRate] else [] in
  let b2 := if lt (consistencyScore metrics) (Num 40) then [HighVariability] else [] in
  let b3 := if lt (timeRemaining metrics) (Num 7) && lt (completionRate metrics) (Num 80)
            then [TimeConstraint] else [] in
  let recentProgress :=
    length (filter (fun p => Z.ltb (now - date p) (7 * 24 * 60 * 60 * 1000)) progressData) in
  let b4 := if Nat.eqb recentProgress 0 && Nat.ltb 0 (length progressData)
            then [ProgressStagnation] else [] in
  b1 ++ b2 ++ b3 ++ b4.

Definition generateRecommendations (metrics : GoalMetrics)
    : list OptimizationRecommendation :=
  let r1 := if lt (efficiencyScore metrics) (Num 60)
            then [mkRecommendation increase_frequency 1 30] else [] in
  let r2 := if lt (consistencyScore metrics) (Num 50)
            then [mkRecommendation add_support 2 25] else [] in
  let r3 := if lt (Num 80) (completionRate metrics) && lt (Num 30) (timeRemaining metrics)
            then [mkRecommendation adjust_target 3 15] else [] in
  ArraySort.sort
    (ArraySort.of_cmp (fun a b => Num (INR (priority a) - INR (priority b))))
    (r1 ++ r2 ++ r3).

Definition analyzeGoalOptimization (now : Z) (goal : Goal) (st : Store.t GoalProgress)
    (progressData : Store.loc) : Store.t GoalProgress * OptimizationAnalysis :=
  let '(st1, metrics) := calculateGoalMetrics now goal st progressData in
  let bottlenecks := identifyBottlenecks now metrics (st1 progressData) in
  let recommendations := generateRecommendations metrics in
  (st1, {| currentEfficiency := efficiencyScore metrics;
           bottlenecks := bottlenecks;
           recommendations := recommendations;
           correlationMatrix := [mkGoalCorrelation 0.65 0.02] |}).

End Goals.

(** ** Mood entries ([src/src/types/mood-tracker.ts]) and [MoodAnalytics] *)
Module Mood.

(** The numeric fields of [MoodEntry]; [date] is the parsed timestamp. *)
Record MoodEntry := mkEntry {
  date : Z;
  mood : R;
  energy : R;
  stress : R;
  sleep : R;
  hydration : R;
  exercise : R;
  nutrition : R
}.

(** [MoodEntryNumericKeys] *)
Inductive Key := Kmood | Kenergy | Kstress | Ksleep | Khydration | Kexercise | Knutrition.

Definition field (k : Key) (e : MoodEntry) : R :=
  match k with
  | Kmood => mood e | Kenergy => energy e | Kstress => stress e
  | Ksleep => sleep e | Khydration => hydration e
  | Kexercise => exercise e | Knutrition => nutrition e
  end.

Record AnalyticsConfig := mkConfig {
  minEntriesForCorrelation : nat;
  minEntriesForTrends : nat;
  confidenceThreshold : R;
  strong : R;
  moderate : R;
  weak : R
}.

Definition DEFAULT_ANALYTICS_CONFIG : AnalyticsConfig :=
  mkConfig 7 14 0.05 0.5 0.3 0.1.

Record PearsonResult := mkPearson { r : number; p : number; n : nat }.

Inductive Interpretation :=
| strong_positive | moderate_positive | weak_positive
| weak_negative | moderate_negative | strong_negative | negligible.

(** [factor] is the capitalised name of the key. *)
Record CorrelationData := mkCorrelation {
  factor : Key;
  correlation : number;
  significance : number;
  sampleSize : nat;
  interpretation : Interpretation
}.

Record Regression := mkRegression { slope : number; intercept : number; r2 : number }.

Inductive Direction := increasing | decreasing | stable.

Record TrendAnalysis := mkTrend {
  metric : Key;
  direction : Direction;
  magnitude : number;
  t_significance : number;
  timeframe : nat
}.

Inductive Weekday := Sunday | Monday | Tuesday | Wednesday | Thursday | Friday | Saturday.

(** The keys of [dayOfWeekMoods], in insertion order. *)
Definition weekdays : list Weekday :=
  [Sunday; Monday; Tuesday; Wednesday; Thursday; Friday; Saturday].

(** [new Date(t).toLocaleDateString('en-US', { weekday: 'long' })] on a host
    whose time zone is UTC; 1 January 1970 was a Thursday. *)
Definition dayName (t : Z) : Weekday :=
  match ((t / 86400000 + 4) mod 7)%Z with
  | 0%Z => Sunday | 1%Z => Monday | 2%Z => Tuesday | 3%Z => Wednesday
  | 4%Z => Thursday | 5%Z => Friday | _ => Saturday
  end.

Definition weekday_eqb (a b : Weekday) : bool :=
  match a, b with
  | Sunday, Sunday | Monday, Monday | Tuesday, Tuesday | Wednesday, Wednesday
  | Thursday, Thursday | Friday, Friday | Saturday, Saturday => true
  | _, _ => false
  end.

(** The strings built from templates are represented by the values they
    interpolate: the description by [variation], the recommendations by the
    peak and low days. *)
Record MoodPattern := mkPattern {
  description_variation : number;
  strength : number;
  peakDays : list Weekday;
  lowDays : list Weekday
}.

(** [this.entries] is the caller's array itself, sorted in place. *)
Record MoodAnalytics := mkAnalytics { entries : Store.loc }.

(** [(a, b) => new Date(a.date).getTime() - new Date(b.date).getTime()] *)
Definition by_date (a b : MoodEntry) : bool :=
  ArraySort.of_cmp (fun a b => Num (IZR (date a - date b))) a b.

(** [constructor(entries)] *)
Definition create (st : Store.t MoodEntry) (entries : Store.loc)
    : Store.t MoodEntry * MoodAnalytics :=
  let '(st1, sorted) := Store.sort_in_place by_date st entries in
  (st1, mkAnalytics sorted).

(** [getEntryValue(entry, factor)]: every numeric key holds a number. *)
Definition getEntryValue (entry : MoodEntry) (k : Key) : number :=
  match k with
  | Kstress => Num (10 - stress entry)
  | _ => Num (field k entry)
  end.

(** [logGamma] *)
Definition logGamma (x : number) : number :=
  let cof := [Num 76.18009172947146; Num (-86.50532032941677); Num 24.01409824083091;
              Num (-1.231739572450155); Num 0.1208650973866179e-2;
              Num (-0.5395239384953e-5)] in
  let tmp := add x (Num 5.5) in
  let tmp := sub tmp (mul (add x (Num 0.5)) (log tmp)) in
  let '(ser, _) :=
    fold_left (fun '(ser, y) c => let y := add y (Num 1) in (add ser (div c y), y))
      cof (Num 1.000000000190015, x) in
  add (opp tmp) (log (div (mul (Num 2.5066282746310005) ser) x)).

(** [if (Math.abs(d) < 1e-30) d = 1e-30;] *)
Definition clamp_tiny (d : number) : number :=
  if lt (abs d) (Num 1e-30) then Num 1e-30 else d.

(** Iterations [m .. maxIter] of the loop of [betaContinuedFraction]. *)
Fixpoint bcf_loop (fuel m : nat) (a b x c d h : number) : number :=
  match fuel with
  | O => h
  | S fuel' =>
      let qab := add a b in
      let qap := add a (Num 1) in
      let qam := sub a (Num 1) in
      let mm := Num (INR m) in
      let m2 := mul (Num 2) mm in
      let aa := div (mul (mul mm (sub b mm)) x) (mul (add qam m2) (add a m2)) in
      let d := clamp_tiny (add (Num 1) (mul aa d)) in
      let c := clamp_tiny (add (Num 1) (div aa c)) in
      let d := div (Num 1) d in
      let h := mul h (mul d c) in
      let aa := div (mul (mul (opp (add a mm)) (add qab mm)) x)
                    (mul (add a m2) (add qap m2)) in
      let d := clamp_tiny (add (Num 1) (mul aa d)) in
      let c := clamp_tiny (add (Num 1) (div aa c)) in
      let d := div (Num 1) d in
      let del := mul d c in
      let h := mul h del in
      if lt (abs (sub del (Num 1))) (Num 3e-7) then h
      else bcf_loop fuel' (S m) a b x c d h
  end.

Definition betaContinuedFraction (a b x : number) : number :=
  let qab := add a b in
  let qap := add a (Num 1) in
  let d := clamp_tiny (sub (Num 1) (div (mul qab x) qap)) in
  let d := div (Num 1) d in
  bcf_loop 100 1 a b x (Num 1) d d.

Definition betaIncomplete (a b x : number) : number :=
  if le x (Num 0) then Num 0 else
  if le (Num 1) x then Num 1 else
  let bt := exp (add (add (sub (sub (logGamma (add a b)) (logGamma a)) (logGamma b))
                          (mul a (log x)))
                     (mul b (log (sub (Num 1) x)))) in
  if lt x (div (add a (Num 1)) (add (add a b) (Num 2)))
  then div (mul bt (betaContinuedFraction a b x)) a
  else sub (Num 1) (div (mul bt (betaContinuedFraction b a (sub (Num 1) x))) b).

Definition tTestPValue (t df : number) : number :=
  let x := div df (add df (mul t t)) in
  betaIncomplete (div df (Num 2)) (Num 0.5) x.

(** The sums shared by [pearsonCorrelation] and [linearRegression]. *)
Definition sumXY (x y : list number) : number :=
  reduce_idx (fun v i => mul v (at_ y i)) 0 x (Num 0).
Definition sumSq (x : list number) : number :=
  fold_left (fun s v => add s (mul v v)) x (Num 0).

(** [numerator] and [denominator] of [pearsonCorrelation]. *)
Definition pearson_numerator (x y : list number) : number :=
  let nn := Num (INR (length x)) in
  sub (mul nn (sumXY x y)) (mul (sum x) (sum y)).

Definition pearson_denominator (x y : list number) : number :=
  let nn := Num (INR (length x)) in
  let sumX := sum x in
  let sumY := sum y in
  sqrt (mul (sub (mul nn (sumSq x)) (mul sumX sumX))
            (sub (mul nn (sumSq y)) (mul sumY sumY))).

Definition pearsonCorrelation (x y : list number) : PearsonResult :=
  let n := length x in
  if Nat.ltb n 3 then mkPearson (Num 0) (Num 1) n else
  let nn := Num (INR n) in
  let numerator := pearson_numerator x y in
  let denominator := pearson_denominator x y in
  let r := if eqb denominator (Num 0) then Num 0 else div numerator denominator in
  let t := mul (abs r) (sqrt (div (sub nn (Num 2)) (sub (Num 1) (mul r r)))) in
  let p := tTestPValue t (sub nn (Num 2)) in
  mkPearson r p n.

Definition interpret (cfg : AnalyticsConfig) (r : number) : Interpretation :=
  let absR := abs r in
  if le (Num (strong cfg)) absR then
    (if lt (Num 0) r then strong_positive else strong_negative)
  else if le (Num (moderate cfg)) absR then
    (if lt (Num 0) r then moderate_positive else moderate_negative)
  else if le (Num (weak cfg)) absR then
    (if lt (Num 0) r then weak_positive else weak_negative)
  else negligible.

Definition correlation_factors : list Key :=
  [Kenergy; Kstress; Ksleep; Khydration; Kexercise; Knutrition].

(** [calculateCorrelations()], on the contents of [this.entries]. *)
Definition calculateCorrelations (cfg : AnalyticsConfig) (es : list MoodEntry)
    : list CorrelationData :=
  if Nat.ltb (length es) (minEntriesForCorrelation cfg) then [] else
  let results :=
    map (fun f =>
           let moodValues := map (fun e => Num (mood e)) es in
           let factorValues := map (fun e => getEntryValue e f) es in
           let res := pearsonCorrelation moodValues factorValues in
           mkCorrelation f (r res) (p res) (n res) (interpret cfg (r res)))
        correlation_factors in
  ArraySort.sort
    (ArraySort.of_cmp (fun a b => sub (abs (correlation b)) (abs (correlation a))))
    results.

Definition linearRegression (x y : list number) : Regression :=
  let nn := Num (INR (length x)) in
  let sumX := sum x in
  let sumY := sum y in
  let sXY := sumXY x y in
  let sumX2 := sumSq x in
  let slope := div (sub (mul nn sXY) (mul sumX sumY))
                   (sub (mul nn sumX2) (mul sumX sumX)) in
  let intercept := div (sub sumY (mul slope sumX)) nn in
  let yMean := div sumY nn in
  let ssRes := reduce_idx (fun v i =>
                  let predicted := add (mul slope (at_ x i)) intercept in
                  pow2 (sub v predicted)) 0 y (Num 0) in
  let ssTot := fold_left (fun s v => add s (pow2 (sub v yMean))) y (Num 0) in
  let r2 := sub (Num 1) (div ssRes ssTot) in
  mkRegression slope intercept r2.

Definition trend_metrics : list Key :=
  [Kmood; Kenergy; Kstress; Ksleep; Khydration; Kexercise; Knutrition].

(** Days since the first entry. *)
Definition timeIndices (es : list MoodEntry) : list number :=
  match es with
  | [] => []
  | e0 :: _ => map (fun e => div (Num (IZR (date e - date e0))) msPerDay) es
  end.

Definition direction_of (weeklyChange : number) : Direction :=
  if lt (abs weeklyChange) (Num 0.1) then stable
  else if lt (Num 0) weeklyChange then increasing else decreasing.

(** The trend of one metric, before sorting. *)
Definition trend_of (es : list MoodEntry) (m : Key) : TrendAnalysis :=
  let values := map (fun e => getEntryValue e m) es in
  let regression := linearRegression (timeIndices es) values in
  let weeklyChange := mul (slope regression) (Num 7) in
  mkTrend m (direction_of weeklyChange) (abs weeklyChange) (r2 regression) (length es).

(** [analyzeTrends()], on the contents of [this.entries]. *)
Definition analyzeTrends (cfg : AnalyticsConfig) (es : list MoodEntry)
    : list TrendAnalysis :=
  if Nat.ltb (length es) (minEntriesForTrends cfg) then [] else
  ArraySort.sort
    (ArraySort.of_cmp (fun a b => sub (t_significance b) (t_significance a)))
    (map (trend_of es) trend_metrics).

(** [{ day, average, count }] for each weekday, before the [count > 0] filter. *)
Definition day_moods (es : list MoodEntry) (d : Weekday) : list number :=
  map (fun e => Num (mood e)) (filter (fun e => weekday_eqb (dayName (date e)) d) es).

Record DayAverage := mkDayAverage { day : Weekday; average : number; count : nat }.

Definition dayAverages (es : list MoodEntry) : list DayAverage :=
  filter (fun item => Nat.ltb 0 (count item))
    (map (fun d =>
            let moods := day_moods es d in
            mkDayAverage d
              (if Nat.ltb 0 (length moods)
               then div (sum moods) (Num (INR (length moods))) else Num 0)
              (length moods))
       weekdays).

(** [detectWeeklyPatterns()], on the contents of [this.entries]. *)
Definition detectWeeklyPatterns (es : list MoodEntry) : list MoodPattern :=
  if Nat.ltb (length es) 14 then [] else
  let avgs := dayAverages es in
  if Nat.ltb (length avgs) 4 then [] else
  let maxMood := max_list (map average avgs) in
  let minMood := min_list (map average avgs) in
  let variation := sub maxMood minMood in
  if lt variation (Num 0.5) then [] else
  let peakDays := map day (filter (fun d => le (sub maxMood (Num 0.3)) (average d)) avgs) in
  let lowDays := map day (filter (fun d => le (average d) (add minMood (Num 0.3))) avgs) in
  [mkPattern variation (min (Num 1) (div variation (Num 3))) peakDays lowDays].

(** [arr.slice(start, end)] with JavaScript's negative indices. *)
Definition js_slice {A} (xs : list A) (start : Z) (end_ : option Z) : list A :=
  let len := Z.of_nat (length xs) in
  let rel k := if (k <? 0)%Z then Z.max (len + k) 0 else Z.min k len in
  let s := rel start in
  let e := match end_ with None => len | Some k => rel k end in
  firstn (Z.to_nat (e - s)) (skipn (Z.to_nat s) xs).

(** [arr.reduce((sum, e) => sum + e.<k>, 0)] *)
Definition sum_field (k : Key) (es : list MoodEntry) : number :=
  fold_left (fun s e => add s (Num (field k e))) es (Num 0).

Inductive Category :=
| category_sleep | category_exercise | category_nutrition | category_stress
| category_hydration | category_lifestyle.

Inductive Difficulty := difficulty_easy | difficulty_moderate | difficulty_challenging.

Record OptimizationSuggestion := mkSuggestion {
  category : Category;
  s_priority : nat;
  title : String.string;
  description : String.string;
  expectedImpact : number;
  s_timeframe : String.string;
  difficulty : Difficulty;
  basedOnCorrelation : number
}.

(** The [switch (factor)] of [generateOptimizations]; [None] is the
    [default: return] branch.  [factor.toLowerCase()] of the capitalised
    factor name is the key itself. *)
Definition suggestion_for (f : Key) (c : number) : option OptimizationSuggestion :=
  match f with
  | Ksleep => Some (mkSuggestion category_sleep
      (if lt (Num 0.5) (abs c) then 1 else 2)
      (if lt (Num 0) c then "Optimize Sleep Duration" else "Improve Sleep Quality")
      (if lt (Num 0) c
       then "Increase sleep duration to 7-9 hours per night for better mood regulation."
       else "Focus on sleep quality through consistent bedtime routines and sleep hygiene.")
      (mul (abs c) (Num 3)) "1-2 weeks" difficulty_moderate c)
  | Kexercise => Some (mkSuggestion category_exercise
      (if lt (Num 0.4) (abs c) then 1 else 2)
      "Increase Physical Activity"
      "Regular exercise shows strong correlation with improved mood. Aim for 30 minutes of moderate activity daily."
      (mul (abs c) (Num 2.5)) "2-3 weeks" difficulty_moderate c)
  | Knutrition => Some (mkSuggestion category_nutrition 2
      "Improve Nutritional Quality"
      "Focus on whole foods, balanced meals, and consistent eating patterns."
      (mul (abs c) (Num 2)) "1-3 weeks" difficulty_easy c)
  | Kstress => Some (mkSuggestion category_stress 1
      "Implement Stress Management"
      "Practice stress reduction techniques like meditation, deep breathing, or progressive muscle relaxation."
      (mul (abs c) (Num 3.5)) "1-4 weeks" difficulty_moderate c)
  | Khydration => Some (mkSuggestion category_hydration 3
      "Maintain Proper Hydration"
      "Aim for 8-10 glasses of water daily. Dehydration can significantly impact mood and energy."
      (mul (abs c) (Num 1.5)) "1 week" difficulty_easy c)
  | Kenergy => Some (mkSuggestion category_lifestyle 2
      "Boost Energy Levels"
      "Energy and mood are closely linked. Focus on sleep, nutrition, and regular activity."
      (mul (abs c) (Num 2)) "2-4 weeks" difficulty_moderate c)
  | Kmood => None
  end.

(** The category of the suggestion [suggestion_for] makes for a factor. *)
Definition category_of (k : Key) : Category :=
  match k with
  | Ksleep => category_sleep | Kexercise => category_exercise
  | Knutrition => category_nutrition | Kstress => category_stress
  | Khydration => category_hydration | Kenergy | Kmood => category_lifestyle
  end.

(** The comparator of [suggestions.sort(...)]. *)
Definition suggestion_cmp (a b : OptimizationSuggestion) : number :=
  if negb (Nat.eqb (s_priority a) (s_priority b))
  then Num (INR (s_priority a) - INR (s_priority b))
  else sub (expectedImpact b) (expectedImpact a).

(** [generateOptimizations()], on the contents of [this.entries]. *)
Definition generateOptimizations (cfg : AnalyticsConfig) (es : list MoodEntry)
    : list OptimizationSuggestion :=
  let correlations := calculateCorrelations cfg es in
  let suggestions :=
    flat_map (fun corr =>
      if le (Num (weak cfg)) (abs (correlation corr)) &&
         lt (significance corr) (Num (confidenceThreshold cfg))
      then match suggestion_for (factor corr) (correlation corr) with
           | Some s => [s]
           | None => []
           end
      else []) correlations in
  ArraySort.sort (ArraySort.of_cmp suggestion_cmp) suggestions.

Inductive ImprovementTrend := trend_improving | trend_declining | trend_stable.

Record WellnessMetrics := mkWellness {
  averageMood : number;
  averageEnergy : number;
  averageStress : number;
  averageSleep : number;
  averageHydration : number;
  averageExercise : number;
  averageNutrition : number;
  w_consistencyScore : number;
  improvementTrend : ImprovementTrend
}.

(** [calculateWellnessMetrics()], on the contents of [this.entries]. *)
Definition calculateWellnessMetrics (es : list MoodEntry) : WellnessMetrics :=
  if Nat.eqb (length es) 0
  then mkWellness (Num 0) (Num 0) (Num 0) (Num 0) (Num 0) (Num 0) (Num 0) (Num 0)
         trend_stable
  else
  let recent := js_slice es (-14) None in
  let older := js_slice es (-28) (Some (-14)%Z) in
  let nn := Num (INR (length es)) in
  let improvementTrend :=
    if Nat.leb 7 (length recent) && Nat.leb 7 (length older) then
      let recentAvg := div (sum_field Kmood recent) (Num (INR (length recent))) in
      let olderAvg := div (sum_field Kmood older) (Num (INR (length older))) in
      if lt (add olderAvg (Num 0.3)) recentAvg then trend_improving
      else if lt recentAvg (sub olderAvg (Num 0.3)) then trend_declining
      else trend_stable
    else trend_stable in
  mkWellness (div (sum_field Kmood es) nn) (div (sum_field Kenergy es) nn)
    (div (sum_field Kstress es) nn) (div (sum_field Ksleep es) nn)
    (div (sum_field Khydration es) nn) (div (sum_field Kexercise es) nn)
    (div (sum_field Knutrition es) nn)
    (min (Num 100) (mul (div nn (Num 30)) (Num 100)))
    improvementTrend.

(** The strings of [basedOn]: a factor name, or [`${direction} mood trend`]. *)
Inductive Basis := basis_factor (k : Key) | basis_trend (d : Direction).

Record Predictions := mkPredictions {
  nextWeekMood : number;
  confidence : number;
  basedOn : list Basis
}.

Record AdvancedInsights := mkInsights {
  i_correlations : list CorrelationData;
  i_trends : list TrendAnalysis;
  i_patterns : list MoodPattern;
  i_optimizations : list OptimizationSuggestion;
  predictions : Predictions
}.

Definition key_eqb (a b : Key) : bool :=
  match a, b with
  | Kmood, Kmood | Kenergy, Kenergy | Kstress, Kstress | Ksleep, Ksleep
  | Khydration, Khydration | Kexercise, Kexercise | Knutrition, Knutrition => true
  | _, _ => false
  end.

Definition direction_eqb (a b : Direction) : bool :=
  match a, b with
  | increasing, increasing | decreasing, decreasing | stable, stable => true
  | _, _ => false
  end.

(** [generateAdvancedInsights()], on the contents of [this.entries]. *)
Definition generateAdvancedInsights (cfg : AnalyticsConfig) (es : list MoodEntry)
    : AdvancedInsights :=
  let correlations := calculateCorrelations cfg es in
  let trends := analyzeTrends cfg es in
  let patterns := detectWeeklyPatterns es in
  let optimizations := generateOptimizations cfg es in
  let recentEntries := js_slice es (-7) None in
  let avgRecentMood :=
    if Nat.ltb 0 (length recentEntries)
    then div (sum_field Kmood recentEntries) (Num (INR (length recentEntries)))
    else Num 5 in
  let moodTrend := find (fun t => key_eqb (metric t) Kmood) trends in
  let nextWeekMood :=
    match moodTrend with
    | Some t =>
        max (Num 1) (min (Num 10)
          (add avgRecentMood
             (mul (magnitude t)
                (if direction_eqb (direction t) increasing then Num 1 else Num (-1)))))
    | None => avgRecentMood
    end in
  let predictionFactors :=
    map (fun c => basis_factor (factor c)) (firstn 3 correlations) ++
    match moodTrend with Some t => [basis_trend (direction t)] | None => [] end in
  mkInsights correlations trends patterns optimizations
    (mkPredictions nextWeekMood (min (Num 90) (mul (Num (INR (length es))) (Num 3)))
       predictionFactors).

End Mood.

(** ** [AnalyticsDashboard] ([src/src/components/goals/AnalyticsDashboard.tsx]) *)
Module Dashboard.

(** The strings [identifyBottlenecks] pushes for each bottleneck. *)
Definition bottleneck_message (b : Goals.Bottleneck) : String.string :=
  match b with
  | Goals.LowProgressRate => "Low progress rate - may need increased frequency or intensity"
  | Goals.HighVariability => "High variability in progress - inconsistent effort patterns"
  | Goals.TimeConstraint =>
      "Time constraint - approaching deadline with significant work remaining"
  | Goals.ProgressStagnation => "Progress stagnation - no recent activity recorded"
  end.

(** [s.includes(sub)] *)
Fixpoint includes (s sub : String.string) : bool :=
  String.prefix sub s ||
  match s with
  | String.EmptyString => false
  | String.String _ s' => includes s' sub
  end.

(** The classification inside [bottleneckAnalysis]. *)
Definition bottleneck_type (bottleneck : String.string) : String.string :=
  if includes bottleneck "efficiency" then "Low Efficiency"
  else if includes bottleneck "consistency" then "Poor Consistency"
  else if includes bottleneck "time" then "Time Pressure"
  else if includes bottleneck "stagnation" then "Progress Stagnation"
  else "Other".

(** [bottleneckTypes[type] = (bottleneckTypes[type] || 0) + 1] on an object
    whose keys keep their insertion order. *)
Fixpoint bump (ty : String.string) (m : list (String.string * nat))
    : list (String.string * nat) :=
  match m with
  | [] => [(ty, 1%nat)]
  | (k, c) :: m' => if String.eqb k ty then (k, S c) :: m' else (k, c) :: bump ty m'
  end.

(** [bottleneckAnalysis]: each goal comes with the location of its
    [progressData[goal.id]] array ([None]: absent, so a fresh [[]]) and the
    clock reading of its [analyzeGoalOptimization] call.  The result lists
    [{ type, count, percentage }]. *)
Definition bottleneckAnalysis (st : Store.t Goals.GoalProgress)
    (filteredGoals : list (Goals.Goal * option Store.loc * Z))
    : list (String.string * nat * number) :=
  let '(_, bottleneckTypes) :=
    fold_left
      (fun '(st, m) '(goal, ol, now) =>
         let '(st', analysis) :=
           match ol with
           | Some l => Goals.analyzeGoalOptimization now goal st l
           | None => (st, snd (Goals.analyzeGoalOptimization now goal (fun _ => []) 0%nat))
           end in
         (st', fold_left (fun m b => bump (bottleneck_type (bottleneck_message b)) m)
                 (Goals.bottlenecks analysis) m))
      filteredGoals (st, []) in
  map (fun '(ty, count) =>
         (ty, count, mul (div (Num (INR count)) (Num (INR (length filteredGoals)))) (Num 100)))
    bottleneckTypes.

End Dashboard.

(** ** [useMoodAnalytics] ([src/src/app/lib/moodDataContext.tsx]) *)
Module MoodHooks.
Import Mood.



End MoodHooks.

(** ** Sums over exact reals, for stating the claims *)
Definition Rsum (l : list R) : R := fold_right Rplus 0 l.
Definition Rsumsq (l : list R) : R := Rsum (map (fun v => v * v) l).
Definition Rsumprod (x y : list R) : R :=
  Rsum (map (fun p => fst p * snd p) (combine x y)).

(** The trend the claims expect for metric [m] when the regressed series is
    [values]: regression against the day index, weekly change [7 * slope]. *)
Definition trend_of_series (es : list Mood.MoodEntry) (m : Mood.Key)
    (values : list number) : Mood.TrendAnalysis :=
  let regression := Mood.linearRegression (Mood.timeIndices es) values in
  let weeklyChange := mul (Mood.slope regression) (Num 7) in
  Mood.mkTrend m (Mood.direction_of weeklyChange) (abs weeklyChange)
    (Mood.r2 regression) (length es).

(** Positive-only deltas between consecutive samples, as reals. *)
Definition positive_deltas (sorted : list Goals.GoalProgress) : list R :=
  map (fun '(prev, cur) => Rmax 0 (Goals.value cur - Goals.value prev))
    (adjacent sorted).

Definition meanR (l : list R) : R := Rsum l / INR (length l).

Definition stddevR (l : list R) : R :=
  R_sqrt.sqrt (Rsum (map (fun v => (v - meanR l) * (v - meanR l)) l) / INR (length l)).

(** The consistency score as the claims state it: 50 below three samples,
    otherwise [max(0, 100 - CV * 100)] with [CV = stddev / mean] of the
    positive-only deltas of the time-sorted samples. *)
Definition consistency_claimed (progress : list Goals.GoalProgress) : number :=
  if Nat.ltb (length progress) 3 then Num 50 else
  let changes := map Num (positive_deltas (ArraySort.sort Goals.by_date progress)) in
  let len := Num (INR (length changes)) in
  let mean := div (sum changes) len in
  let variance :=
    div (fold_left (fun s v => add s (pow2 (sub v mean))) changes (Num 0)) len in
  let cv := div (sqrt variance) mean in
  max (Num 0) (sub (Num 100) (mul cv (Num 100))).

(** Weekday means of mood as exact reals: the moods of the entries falling
    on a weekday, their mean, the weekdays that have entries (in the order
    Sunday .. Saturday), and the largest and smallest of those means. *)
Definition day_moodsR (es : list Mood.MoodEntry) (d : Mood.Weekday) : list R :=
  map Mood.mood (filter (fun e => Mood.weekday_eqb (Mood.dayName (Mood.date e)) d) es).

Definition day_meanR (es : list Mood.MoodEntry) (d : Mood.Weekday) : R :=
  Rsum (day_moodsR es d) / INR (length (day_moodsR es d)).

Definition represented (es : list Mood.MoodEntry) : list Mood.Weekday :=
  filter (fun d => Nat.ltb 0 (length (day_moodsR es d))) Mood.weekdays.

Definition RmaxL (l : list R) : R :=
  match l with [] => 0 | m :: ms => fold_left Rmax ms m end.

Definition RminL (l : list R) : R :=
  match l with [] => 0 | m :: ms => fold_left Rmin ms m end.

Definition weekday_max (es : list Mood.MoodEntry) : R :=
  RmaxL (map (day_meanR es) (represented es)).

Definition weekday_min (es : list Mood.MoodEntry) : R :=
  RminL (map (day_meanR es) (represented es)).

Definition variationR (es : list Mood.MoodEntry) : R := weekday_max es - weekday_min es.

Definition peak_days_claimed (es : list Mood.MoodEntry) : list Mood.Weekday :=
  filter (fun d => if Rle_dec (weekday_max es - 0.3) (day_meanR es d) then true else false)
    (represented es).

Definition low_days_claimed (es : list Mood.MoodEntry) : list Mood.Weekday :=
  filter (fun d => if Rle_dec (day_meanR es d) (weekday_min es + 0.3) then true else false)
    (represented es).

(** * Properties *)

Import Mood.

(** Settles the decisions on concrete real numbers left by unfolding the
    number model. *)
Ltac decide_reals :=
  repeat match goal with
  | |- context [Req_EM_T ?a ?b] =>
      destruct (Req_EM_T a b); try (exfalso; lra)
  | |- context [Rlt_dec ?a ?b] =>
      destruct (Rlt_dec a b); try (exfalso; lra)
  end.

Lemma mul_comm (x y : number) : mul x y = mul y x.
Proof.
  destruct x as [a|s|], y as [b|t|]; simpl; try reflexivity.
  - f_equal; ring.
  - now rewrite xorb_comm.
Qed.

Lemma at_app_length (pre ys : list number) (y : number) :
  at_ (pre ++ y :: ys) (length pre) = y.
Proof.
  unfold at_. rewrite nth_error_app2 by lia. now rewrite Nat.sub_diag.
Qed.

(** An indexed [reduce] reading a second array of the same length is a fold
    over the pairs. *)
Lemma reduce_idx_combine (f : number -> number -> number) :
  forall xs pre ys acc, length xs = length ys ->
  reduce_idx (fun v i => f v (at_ (pre ++ ys) i)) (length pre) xs acc =
  fold_left (fun s p => add s (f (fst p) (snd p))) (combine xs ys) acc.
Proof.
  induction xs as [|v xs IH]; intros pre ys acc Hlen; destruct ys as [|y ys];
    simpl in *; try reflexivity; try discriminate.
  rewrite at_app_length.
  replace (S (length pre)) with (length (pre ++ [y]))
    by (rewrite length_app; simpl; lia).
  replace (pre ++ y :: ys) with ((pre ++ [y]) ++ ys)
    by (rewrite <- app_assoc; reflexivity).
  apply IH. lia.
Qed.

Lemma sumXY_combine (x y : list number) : length x = length y ->
  sumXY x y = fold_left (fun s p => add s (mul (fst p) (snd p))) (combine x y) (Num 0).
Proof.
  intro H. unfold sumXY.
  exact (reduce_idx_combine (fun v w => mul v w) x [] y (Num 0) H).
Qed.

Lemma fold_mul_combine_swap :
  forall (x y : list number) acc,
  fold_left (fun s p => add s (mul (fst p) (snd p))) (combine y x) acc =
  fold_left (fun s p => add s (mul (fst p) (snd p))) (combine x y) acc.
Proof.
  induction x as [|a x IH]; intros y acc; destruct y as [|b y]; simpl; try reflexivity.
  rewrite mul_comm. apply IH.
Qed.

Lemma sumXY_comm (x y : list number) : length x = length y ->
  sumXY x y = sumXY y x.
Proof.
  intro H. rewrite (sumXY_combine x y H), (sumXY_combine y x (eq_sym H)).
  symmetry. apply fold_mul_combine_swap.
Qed.

(** C5: for equal-length sequences, [pearsonCorrelation(x, y)] and
    [pearsonCorrelation(y, x)] agree on [r], [p] and [n]. *)
Theorem pearsonCorrelation_symmetric (x y : list number) :
  length x = length y -> pearsonCorrelation x y = pearsonCorrelation y x.
Proof.
  intro H. unfold pearsonCorrelation, pearson_numerator, pearson_denominator.
  rewrite <- H, (sumXY_comm x y H), (mul_comm (sum y) (sum x)).
  set (A := sub (mul (Num (INR (length x))) (sumSq x)) (mul (sum x) (sum x))).
  set (B := sub (mul (Num (INR (length x))) (sumSq y)) (mul (sum y) (sum y))).
  now rewrite (mul_comm A B).
Qed.

Lemma pearsonCorrelation_symmetric_witness :
  length [Num 1; Num 2; Num 3] = length [Num 3; Num 1; Num 2] /\
  pearsonCorrelation [Num 1; Num 2; Num 3] [Num 3; Num 1; Num 2] =
  pearsonCorrelation [Num 3; Num 1; Num 2] [Num 1; Num 2; Num 3].
Proof.
  split; [reflexivity | apply pearsonCorrelation_symmetric; reflexivity].
Defined.

(** C4: with fewer than 3 values [pearsonCorrelation] returns [r = 0],
    [p = 1] (and [n]); whenever the product-moment denominator is 0 the
    returned [r] is 0. *)
Theorem pearsonCorrelation_neutral (x y : list number) :
  ((length x < 3)%nat ->
   pearsonCorrelation x y = mkPearson (Num 0) (Num 1) (length x)) /\
  (pearson_denominator x y = Num 0 -> r (pearsonCorrelation x y) = Num 0).
Proof.
  split.
  - intro Hn. unfold pearsonCorrelation. now rewrite (proj2 (Nat.ltb_lt _ _) Hn).
  - intro Hd. unfold pearsonCorrelation.
    destruct (Nat.ltb (length x) 3); [reflexivity|].
    rewrite Hd. simpl. now destruct (Req_EM_T 0 0).
Qed.

Lemma pearsonCorrelation_neutral_witness :
  (length [Num 1; Num 1] < 3)%nat /\
  pearson_denominator [Num 1; Num 1] [Num 1; Num 1] = Num 0 /\
  pearsonCorrelation [Num 1; Num 1] [Num 1; Num 1] = mkPearson (Num 0) (Num 1) 2 /\
  r (pearsonCorrelation [Num 1; Num 1] [Num 1; Num 1]) = Num 0.
Proof.
  assert (Hd : pearson_denominator [Num 1; Num 1] [Num 1; Num 1] = Num 0).
  { unfold pearson_denominator, sumSq, sum, JsNum.sqrt. simpl.
    match goal with |- context [Rlt_dec ?a 0] => replace a with 0 by ring end.
    decide_reals. f_equal. apply sqrt_0. }
  assert (Hn : (length [Num 1; Num 1] < 3)%nat) by (simpl; lia).
  destruct (pearsonCorrelation_neutral [Num 1; Num 1] [Num 1; Num 1]) as [H1 H2].
  split; [exact Hn|]. split; [exact Hd|].
  split; [exact (H1 Hn) | exact (H2 Hd)].
Defined.

(** C6: for a goal with a positive theoretical rate [t], the efficiency
    score of [calculateGoalMetrics] is [min(100, averageDailyProgress / t *
    100)]; an actual rate of [2 t] scores exactly 100. *)
Theorem calculateGoalMetrics_efficiency_cap (now : Z) (goal : Goals.Goal)
    (st : Store.t Goals.GoalProgress) (l : Store.loc) (t : R) :
  Goals.theoreticalRate goal = Num t -> 0 < t ->
  let m := snd (Goals.calculateGoalMetrics now goal st l) in
  Goals.efficiencyScore m =
    min (Num 100) (mul (div (Goals.averageDailyProgress m) (Num t)) (Num 100)) /\
  (Goals.averageDailyProgress m = Num (2 * t) -> Goals.efficiencyScore m = Num 100).
Proof.
  intros Ht Hpos. unfold Goals.calculateGoalMetrics.
  destruct (if Nat.ltb 1 (length (st l)) then _ else _) as [st1 daily].
  destruct (Goals.calculateConsistencyScore st1 l) as [st2 cs].
  simpl. rewrite Ht. split; [reflexivity|].
  intro Hd. rewrite Hd. simpl. decide_reals.
  change (mul (Num (2 * t / t)) (Num 100)) with (Num (2 * t / t * 100)).
  replace (2 * t / t * 100) with 200 by (field; lra).
  simpl. decide_reals. reflexivity.
Qed.

Lemma calculateGoalMetrics_efficiency_cap_witness :
  let goal := Goals.mkGoal 10 5 864000000 0 in
  Goals.theoreticalRate goal = Num 1 /\ 0 < 1 /\
  let m := snd (Goals.calculateGoalMetrics 86400000 goal (fun _ => []) 0%nat) in
  Goals.efficiencyScore m =
    min (Num 100) (mul (div (Goals.averageDailyProgress m) (Num 1)) (Num 100)) /\
  (Goals.averageDailyProgress m = Num (2 * 1) -> Goals.efficiencyScore m = Num 100).
Proof.
  intro goal.
  assert (Ht : Goals.theoreticalRate goal = Num 1).
  { unfold Goals.theoreticalRate, goal, msPerDay; simpl Goals.targetValue.
    replace (Goals.deadline (Goals.mkGoal 10 5 864000000 0) -
             Goals.createdAt (Goals.mkGoal 10 5 864000000 0))%Z
      with 864000000%Z by reflexivity.
    simpl. decide_reals. f_equal. field. }
  split; [exact Ht|]. split; [lra|].
  apply calculateGoalMetrics_efficiency_cap; [exact Ht | lra].
Defined.

(** ** Sums of finite values stay finite *)

Lemma sum_map_Num (l : list R) : forall a,
  fold_left add (map Num l) (Num a) = Num (a + Rsum l).
Proof.
  induction l as [|v l IH]; intro a; simpl.
  - f_equal; ring.
  - rewrite IH. f_equal; ring.
Qed.

Lemma sumSq_map_Num (l : list R) : forall a,
  fold_left (fun s v => add s (mul v v)) (map Num l) (Num a) = Num (a + Rsumsq l).
Proof.
  unfold Rsumsq. induction l as [|v l IH]; intro a; simpl.
  - f_equal; ring.
  - rewrite IH. f_equal; ring.
Qed.

Lemma fold_mul_combine_Num (x : list R) : forall y a, length x = length y ->
  fold_left (fun s p => add s (mul (fst p) (snd p)))
    (combine (map Num x) (map Num y)) (Num a) = Num (a + Rsumprod x y).
Proof.
  unfold Rsumprod. induction x as [|u x IH]; intros [|w y] a H; simpl in *;
    try discriminate.
  - f_equal; ring.
  - rewrite IH by lia. f_equal; ring.
Qed.

Lemma sumXY_map_Num (x y : list R) : length x = length y ->
  sumXY (map Num x) (map Num y) = Num (Rsumprod x y).
Proof.
  intro H. rewrite sumXY_combine by (rewrite !length_map; exact H).
  rewrite fold_mul_combine_Num by exact H. f_equal; ring.
Qed.

(** ** Cauchy-Schwarz for the product-moment sums *)

Lemma Rsumsq_nonneg (l : list R) : 0 <= Rsumsq l.
Proof.
  unfold Rsumsq. induction l as [|v l IH]; simpl; nra.
Qed.

Lemma cauchy_schwarz (x : list R) : forall y, length x = length y ->
  Rsumprod x y * Rsumprod x y <= Rsumsq x * Rsumsq y.
Proof.
  induction x as [|a x IH]; intros [|b y] H; simpl in *; try discriminate.
  - unfold Rsumprod, Rsumsq; simpl; lra.
  - specialize (IH y ltac:(lia)).
    pose proof (Rsumsq_nonneg x) as HA. pose proof (Rsumsq_nonneg y) as HB.
    unfold Rsumprod, Rsumsq in *; simpl.
    set (C := Rsum (map (fun p => fst p * snd p) (combine x y))) in *.
    set (A := Rsum (map (fun v => v * v) x)) in *.
    set (B := Rsum (map (fun v => v * v) y)) in *.
    assert (Hsq : 4 * (C * C) * (a * a * (b * b)) <= 4 * (A * B) * (a * a * (b * b))).
    { apply Rmult_le_compat_r; nra. }
    assert (Hamgm : 4 * (A * B) * (a * a * (b * b)) <=
                    (A * (b * b) + a * a * B) * (A * (b * b) + a * a * B)).
    { pose proof (Rle_0_sqr (A * (b * b) - a * a * B)) as Hs. unfold Rsqr in Hs.
      replace ((A * (b * b) + a * a * B) * (A * (b * b) + a * a * B))
        with (4 * (A * B) * (a * a * (b * b)) +
              (A * (b * b) - a * a * B) * (A * (b * b) - a * a * B)) by ring.
      lra. }
    assert (Hpos : 0 <= A * (b * b) + a * a * B) by nra.
    assert (Hcross : 2 * C * (a * b) <= A * (b * b) + a * a * B).
    { destruct (Rle_dec (2 * C * (a * b)) 0) as [Hle|Hgt]; [lra|].
      apply Rnot_le_lt in Hgt.
      destruct (Rle_dec (2 * C * (a * b)) (A * (b * b) + a * a * B)) as [Hok|Hbad];
        [exact Hok|].
      apply Rnot_le_lt in Hbad. exfalso. nra. }
    nra.
Qed.

Lemma Rsumprod_center (x : list R) (k s t : R) : forall y, length x = length y ->
  Rsumprod (map (fun v => k * v - s) x) (map (fun v => k * v - t) y) =
  k * k * Rsumprod x y - k * t * Rsum x - k * s * Rsum y + INR (length x) * s * t.
Proof.
  unfold Rsumprod, Rsum. induction x as [|a x IH]; intros [|b y] H;
    cbn [map combine fold_right length fst snd] in *; try discriminate.
  - simpl. ring.
  - rewrite IH by lia. rewrite S_INR. ring.
Qed.

Lemma Rsumsq_center (x : list R) (k s : R) :
  Rsumsq (map (fun v => k * v - s) x) =
  k * k * Rsumsq x - 2 * k * s * Rsum x + INR (length x) * s * s.
Proof.
  unfold Rsumsq, Rsum. induction x as [|a x IH]; cbn [map fold_right length].
  - simpl. ring.
  - rewrite IH. rewrite S_INR. ring.
Qed.

(** The product-moment inequality: both variance terms are nonnegative and
    the squared numerator is at most their product. *)
Lemma product_moment_bound (x y : list R) :
  length x = length y -> (0 < length x)%nat ->
  let n := INR (length x) in
  let N := n * Rsumprod x y - Rsum x * Rsum y in
  let Dx := n * Rsumsq x - Rsum x * Rsum x in
  let Dy := n * Rsumsq y - Rsum y * Rsum y in
  0 <= Dx /\ 0 <= Dy /\ N * N <= Dx * Dy.
Proof.
  intros H Hpos n N Dx Dy.
  assert (Hn : 0 < n) by (apply lt_0_INR; exact Hpos).
  pose proof (cauchy_schwarz (map (fun v => n * v - Rsum x) x)
                (map (fun v => n * v - Rsum y) y)
                ltac:(rewrite !length_map; exact H)) as Hcs.
  rewrite (Rsumprod_center x n (Rsum x) (Rsum y) y H) in Hcs.
  rewrite !Rsumsq_center in Hcs.
  pose proof (Rsumsq_nonneg (map (fun v => n * v - Rsum x) x)) as Hx.
  pose proof (Rsumsq_nonneg (map (fun v => n * v - Rsum y) y)) as Hy.
  rewrite Rsumsq_center in Hx, Hy.
  rewrite <- H in Hcs, Hy. fold n in Hcs, Hx, Hy.
  replace (n * n * Rsumsq x - 2 * n * Rsum x * Rsum x + n * Rsum x * Rsum x)
    with (n * Dx) in Hcs, Hx by (unfold Dx; ring).
  replace (n * n * Rsumsq y - 2 * n * Rsum y * Rsum y + n * Rsum y * Rsum y)
    with (n * Dy) in Hcs, Hy by (unfold Dy; ring).
  replace (n * n * Rsumprod x y - n * Rsum y * Rsum x - n * Rsum x * Rsum y +
           n * Rsum x * Rsum y) with (n * N) in Hcs by (unfold N; ring).
  assert (HDx : 0 <= Dx) by nra.
  assert (HDy : 0 <= Dy) by nra.
  split; [exact HDx|]. split; [exact HDy|].
  apply (Rmult_le_reg_l (n * n)); [nra|]. nra.
Qed.

(** C3: for equal-length finite sequences of length at least 3 whose
    product-moment denominator term is nonzero, the coefficient [r] of
    [pearsonCorrelation] is a finite number in [[-1, 1]]. *)
Theorem pearsonCorrelation_bounded (x y : list R) :
  length x = length y -> (3 <= length x)%nat ->
  (INR (length x) * Rsumsq x - Rsum x * Rsum x) *
  (INR (length x) * Rsumsq y - Rsum y * Rsum y) <> 0 ->
  exists v, r (pearsonCorrelation (map Num x) (map Num y)) = Num v /\ -1 <= v <= 1.
Proof.
  intros H H3 Hd.
  destruct (product_moment_bound x y H ltac:(lia)) as [HDx [HDy HN]].
  set (n := INR (length x)) in *.
  set (N := n * Rsumprod x y - Rsum x * Rsum y) in *.
  set (Dx := n * Rsumsq x - Rsum x * Rsum x) in *.
  set (Dy := n * Rsumsq y - Rsum y * Rsum y) in *.
  assert (HP : 0 < Dx * Dy).
  { destruct (Rle_lt_or_eq_dec 0 (Dx * Dy)) as [Hlt|Heq];
      [apply Rmult_le_pos; assumption | exact Hlt | congruence]. }
  assert (Hs : 0 < R_sqrt.sqrt (Dx * Dy)) by (apply sqrt_lt_R0; exact HP).
  assert (Hnum : pearson_numerator (map Num x) (map Num y) = Num N).
  { unfold pearson_numerator, sum.
    rewrite length_map, sumXY_map_Num, !sum_map_Num by exact H.
    simpl. unfold N, n. f_equal. ring. }
  assert (Hden : pearson_denominator (map Num x) (map Num y) =
                 Num (R_sqrt.sqrt (Dx * Dy))).
  { unfold pearson_denominator, sumSq, sum.
    rewrite length_map, !sum_map_Num, !sumSq_map_Num.
    simpl. fold n.
    replace ((n * (0 + Rsumsq x) + - ((0 + Rsum x) * (0 + Rsum x))) *
             (n * (0 + Rsumsq y) + - ((0 + Rsum y) * (0 + Rsum y))))
      with (Dx * Dy) by (unfold Dx, Dy; ring).
    decide_reals. reflexivity. }
  unfold pearsonCorrelation.
  rewrite length_map. replace (Nat.ltb (length x) 3) with false
    by (symmetry; apply Nat.ltb_ge; exact H3).
  rewrite Hnum, Hden. simpl. decide_reals.
  exists (N / R_sqrt.sqrt (Dx * Dy)). split; [reflexivity|].
  assert (Habs : Rabs N <= R_sqrt.sqrt (Dx * Dy)).
  { rewrite <- sqrt_Rsqr_abs. apply sqrt_le_1_alt. unfold Rsqr. exact HN. }
  set (s := R_sqrt.sqrt (Dx * Dy)) in *.
  pose proof (Rle_abs N). pose proof (Rle_abs (- N)). rewrite Rabs_Ropp in *.
  assert (Hq : N = N / s * s) by (field; lra).
  split; nra.
Qed.

Lemma pearsonCorrelation_bounded_witness :
  length [1; 2; 3] = length [1; 3; 2] /\ (3 <= length [1; 2; 3])%nat /\
  (INR (length [1; 2; 3]) * Rsumsq [1; 2; 3] - Rsum [1; 2; 3] * Rsum [1; 2; 3]) *
  (INR (length [1; 2; 3]) * Rsumsq [1; 3; 2] - Rsum [1; 3; 2] * Rsum [1; 3; 2]) <> 0 /\
  exists v, r (pearsonCorrelation (map Num [1; 2; 3]) (map Num [1; 3; 2])) = Num v /\
            -1 <= v <= 1.
Proof.
  assert (Hd : (INR (length [1; 2; 3]) * Rsumsq [1; 2; 3] - Rsum [1; 2; 3] * Rsum [1; 2; 3]) *
               (INR (length [1; 2; 3]) * Rsumsq [1; 3; 2] - Rsum [1; 3; 2] * Rsum [1; 3; 2])
               <> 0).
  { unfold Rsumsq, Rsum. simpl. lra. }
  split; [reflexivity|]. split; [simpl; lia|]. split; [exact Hd|].
  apply pearsonCorrelation_bounded; [reflexivity | simpl; lia | exact Hd].
Defined.

(** ** Linear regression on a constant series *)

Lemma add_Num (a b : R) : add (Num a) (Num b) = Num (a + b).
Proof. reflexivity. Qed.

Lemma sub_Num (a b : R) : sub (Num a) (Num b) = Num (a - b).
Proof. reflexivity. Qed.

Lemma mul_Num (a b : R) : mul (Num a) (Num b) = Num (a * b).
Proof. reflexivity. Qed.

Lemma div_Num (a b : R) : b <> 0 -> div (Num a) (Num b) = Num (a / b).
Proof. intro H. simpl. now destruct (Req_EM_T b 0). Qed.

Lemma Rsum_const (x : list R) (c : R) :
  Rsum (map (fun _ => c) x) = INR (length x) * c.
Proof.
  unfold Rsum. induction x as [|a x IH]; cbn [map fold_right length].
  - simpl. ring.
  - rewrite IH, S_INR. ring.
Qed.

Lemma Rsumprod_const (x : list R) (c : R) :
  Rsumprod x (map (fun _ => c) x) = c * Rsum x.
Proof.
  unfold Rsumprod, Rsum. induction x as [|a x IH]; cbn [map combine fold_right fst snd].
  - ring.
  - rewrite IH. ring.
Qed.

(** A fold whose every step adds a finite zero yields zero. *)
Lemma fold_add_zero {A} (g : number -> A -> number) (l : list A) :
  Forall (fun v => forall acc, g acc v = add acc (Num 0)) l ->
  fold_left g l (Num 0) = Num 0.
Proof.
  induction l as [|v l IH]; intro H; simpl; [reflexivity|].
  inversion H as [|? ? Hv Hl]; subst.
  rewrite Hv. simpl. rewrite Rplus_0_l. now apply IH.
Qed.

(** [linearRegression] on finite [x] with a nonzero denominator and a
    constant [y]: the slope is 0, the intercept is the constant, and
    [ssTot = 0] makes [R^2 = 1 - 0/0] NaN. *)
Lemma linearRegression_constant_y (x : list R) (c : R) :
  INR (length x) * Rsumsq x - Rsum x * Rsum x <> 0 ->
  linearRegression (map Num x) (map Num (map (fun _ => c) x)) =
  mkRegression (Num 0) (Num c) NaN.
Proof.
  intro HD.
  assert (Hlen : length (map Num (map (fun _ : R => c) x)) = length (map Num x))
    by (rewrite !length_map; reflexivity).
  assert (Hn : INR (length x) <> 0).
  { intro Hz. apply HD. destruct x; [simpl; ring|].
    exfalso. cbn [length] in Hz. rewrite S_INR in Hz. pose proof (pos_INR (length x)). lra. }
  unfold linearRegression, sum, sumSq. cbv beta zeta.
  rewrite length_map, sumXY_map_Num by (rewrite length_map; reflexivity).
  rewrite !sum_map_Num, sumSq_map_Num, Rsumprod_const, Rsum_const.
  set (n := INR (length x)) in *.
  rewrite !mul_Num, !sub_Num.
  replace (n * (c * Rsum x) - (0 + Rsum x) * (0 + n * c)) with 0 by ring.
  replace (n * (0 + Rsumsq x) - (0 + Rsum x) * (0 + Rsum x))
    with (n * Rsumsq x - Rsum x * Rsum x) by ring.
  rewrite div_Num by exact HD.
  replace (0 / (n * Rsumsq x - Rsum x * Rsum x)) with 0 by (field; exact HD).
  rewrite !mul_Num, !sub_Num, !div_Num by exact Hn.
  replace ((0 + n * c - 0 * (0 + Rsum x)) / n) with c by (field; exact Hn).
  replace ((0 + n * c) / n) with c by (field; exact Hn).
  pose proof (reduce_idx_combine
             (fun v w => pow2 (sub v (add (mul (Num 0) w) (Num c))))
             (map Num (map (fun _ => c) x)) [] (map Num x) (Num 0) Hlen) as E.
  change (length (@nil number)) with 0%nat in E.
  change ([] ++ map Num x) with (map Num x) in E.
  cbv beta in E. rewrite E.
  rewrite fold_add_zero.
  2:{ rewrite Forall_forall. intros [a b] Hin acc.
      pose proof (in_combine_r _ _ _ _ Hin) as Hb.
      apply in_combine_l in Hin. rewrite map_map, in_map_iff in Hin.
      rewrite in_map_iff in Hb.
      destruct Hin as [v [<- _]]. destruct Hb as [w [<- _]].
      f_equal. simpl. f_equal. ring. }
  rewrite fold_add_zero.
  2:{ rewrite Forall_forall. intros a Hin acc.
      rewrite map_map, in_map_iff in Hin. destruct Hin as [v [<- _]].
      f_equal. simpl. f_equal. ring. }
  simpl. destruct (Req_EM_T 0 0); [reflexivity | congruence].
Qed.

(** C1: on [x = [0, 1, 2, 3]] and the constant series [y = [5, 5, 5, 5]],
    [linearRegression] returns slope 0 but [R^2] NaN, not 0: nothing guards
    [ssTot = 0] (unlike the zero-denominator guard of [pearsonCorrelation]). *)
Theorem linearRegression_constant_y_r2_NaN :
  let reg := linearRegression (map Num [0; 1; 2; 3]) (map Num [5; 5; 5; 5]) in
  slope reg = Num 0 /\ r2 reg = NaN.
Proof.
  intro reg. unfold reg.
  change (map Num [5; 5; 5; 5]) with (map Num (map (fun _ => 5) [0; 1; 2; 3])).
  rewrite linearRegression_constant_y.
  - split; reflexivity.
  - unfold Rsumsq, Rsum. simpl. lra.
Qed.

(** ** [Array.prototype.sort] permutes, sorts, and is idempotent *)

Section SortFacts.
Variable A : Type.
Variable before : A -> A -> bool.
Hypothesis before_total : forall a b, before a b = false -> before b a = true.

Let Before a b := before a b = true.

Lemma insert_perm (x : A) (l : list A) :
  Permutation (ArraySort.insert before x l) (x :: l).
Proof.
  induction l as [|y l IH]; simpl; [reflexivity|].
  destruct (before x y); [reflexivity|].
  rewrite IH. apply perm_swap.
Qed.

Lemma sort_perm (l : list A) : Permutation (ArraySort.sort before l) l.
Proof.
  induction l as [|x l IH]; simpl; [reflexivity|].
  rewrite insert_perm. now apply perm_skip.
Qed.

Lemma insert_sorted (x : A) (l : list A) :
  Sorted Before l -> Sorted Before (ArraySort.insert before x l).
Proof.
  induction 1 as [|y l Hl IH Hhd]; simpl.
  - repeat constructor.
  - destruct (before x y) eqn:Exy.
    + constructor; [constructor; assumption | constructor; exact Exy].
    + constructor; [exact IH|].
      destruct l as [|z l]; simpl.
      * constructor. apply before_total. exact Exy.
      * inversion Hhd; subst. destruct (before x z).
        -- constructor. apply before_total. exact Exy.
        -- constructor. assumption.
Qed.

Lemma sort_sorted (l : list A) : Sorted Before (ArraySort.sort before l).
Proof.
  induction l as [|x l IH]; simpl; [constructor|]. now apply insert_sorted.
Qed.

Lemma sort_of_sorted (l : list A) : Sorted Before l -> ArraySort.sort before l = l.
Proof.
  induction 1 as [|y l Hl IH Hhd]; simpl; [reflexivity|].
  rewrite IH. destruct l as [|z l]; simpl; [reflexivity|].
  inversion Hhd as [|? ? Hyz]; subst. unfold Before in Hyz. now rewrite Hyz.
Qed.

Lemma sort_idempotent (l : list A) :
  ArraySort.sort before (ArraySort.sort before l) = ArraySort.sort before l.
Proof. apply sort_of_sorted, sort_sorted. Qed.

End SortFacts.

Lemma of_cmp_date_total {A} (date_of : A -> Z) (a b : A) :
  ArraySort.of_cmp (fun a b => Num (IZR (date_of a - date_of b))) a b = false ->
  ArraySort.of_cmp (fun a b => Num (IZR (date_of a - date_of b))) b a = true.
Proof.
  unfold ArraySort.of_cmp. simpl. rewrite !minus_IZR.
  destruct (Rlt_dec 0 (IZR (date_of a) - IZR (date_of b)));
  destruct (Rlt_dec 0 (IZR (date_of b) - IZR (date_of a))); simpl; auto; lra.
Qed.

(** ** What the analyses leave in the caller's array *)

Lemma store_set_same {A} (st : Store.t A) (l : Store.loc) (v : list A) :
  Store.set st l v l = v.
Proof. unfold Store.set. now rewrite Nat.eqb_refl. Qed.

Lemma calculateAverageDailyProgress_eq (st : Store.t Goals.GoalProgress) (l : Store.loc) :
  Goals.calculateAverageDailyProgress st l =
  if Nat.ltb (length (st l)) 2 then (st, Num 0) else
  (Store.set st l (ArraySort.sort Goals.by_date (st l)),
   let '(totalProgress, totalDays) :=
     Goals.progress_totals (ArraySort.sort Goals.by_date (st l)) in
   if lt (Num 0) totalDays then div totalProgress totalDays else Num 0).
Proof.
  unfold Goals.calculateAverageDailyProgress, Store.sort_in_place.
  destruct (Nat.ltb (length (st l)) 2); [reflexivity|].
  rewrite store_set_same. now destruct (Goals.progress_totals _).
Qed.

Lemma calculateConsistencyScore_eq (st : Store.t Goals.GoalProgress) (l : Store.loc) :
  Goals.calculateConsistencyScore st l =
  if Nat.ltb (length (st l)) 3 then (st, Num 50) else
  (Store.set st l (ArraySort.sort Goals.by_date (st l)),
   Goals.consistency_of_changes
     (Goals.dailyChanges (ArraySort.sort Goals.by_date (st l)))).
Proof.
  unfold Goals.calculateConsistencyScore, Store.sort_in_place.
  destruct (Nat.ltb (length (st l)) 3); [reflexivity|].
  now rewrite store_set_same.
Qed.

Lemma goal_sort_idempotent (xs : list Goals.GoalProgress) :
  ArraySort.sort Goals.by_date (ArraySort.sort Goals.by_date xs) =
  ArraySort.sort Goals.by_date xs.
Proof. apply sort_idempotent. intros a b. apply of_cmp_date_total. Qed.

Lemma goal_sort_length (xs : list Goals.GoalProgress) :
  length (ArraySort.sort Goals.by_date xs) = length xs.
Proof. apply Permutation_length, sort_perm. Qed.

(** After [calculateGoalMetrics], the caller's array of two or more samples
    holds them sorted by date. *)
Lemma calculateGoalMetrics_store (now : Z) (goal : Goals.Goal)
    (st : Store.t Goals.GoalProgress) (l : Store.loc) :
  fst (Goals.calculateGoalMetrics now goal st l) l =
  if Nat.ltb 1 (length (st l)) then ArraySort.sort Goals.by_date (st l) else st l.
Proof.
  unfold Goals.calculateGoalMetrics.
  destruct (Nat.ltb 1 (length (st l))) eqn:E.
  - rewrite calculateAverageDailyProgress_eq.
    replace (Nat.ltb (length (st l)) 2) with false
      by (symmetry; apply Nat.ltb_ge; apply Nat.ltb_lt in E; lia).
    destruct (Goals.progress_totals _) as [tp td].
    rewrite calculateConsistencyScore_eq, store_set_same, goal_sort_length.
    destruct (Nat.ltb (length (st l)) 3); simpl;
      rewrite store_set_same; [reflexivity|].
    apply goal_sort_idempotent.
  - rewrite calculateConsistencyScore_eq.
    replace (Nat.ltb (length (st l)) 3) with true
      by (symmetry; apply Nat.ltb_lt; apply Nat.ltb_ge in E; lia).
    reflexivity.
Qed.

(** C2: the caller's arrays are reordered.  [new MoodAnalytics(arr)] and
    [calculateGoalMetrics] / [analyzeGoalOptimization] on an array whose
    records are out of date order leave the array itself sorted. *)
Theorem caller_array_sorted_in_place :
  let e0 := mkEntry 0 5 5 5 7 8 30 5 in
  let e1 := mkEntry 86400000 6 5 5 7 8 30 5 in
  let p0 := Goals.mkProgress 0 1 in
  let p1 := Goals.mkProgress 86400000 2 in
  let goal := Goals.mkGoal 10 2 864000000 0 in
  fst (create (fun _ => [e1; e0]) 0%nat) 0%nat = [e0; e1] /\
  fst (Goals.calculateGoalMetrics 172800000 goal (fun _ => [p1; p0]) 0%nat) 0%nat
    = [p0; p1] /\
  fst (Goals.analyzeGoalOptimization 172800000 goal (fun _ => [p1; p0]) 0%nat) 0%nat
    = [p0; p1] /\
  [e1; e0] <> [e0; e1] /\ [p1; p0] <> [p0; p1].
Proof.
  intros e0 e1 p0 p1 goal.
  assert (Hp : ArraySort.sort Goals.by_date [p1; p0] = [p0; p1]).
  { unfold Goals.by_date, ArraySort.of_cmp. simpl. decide_reals. reflexivity. }
  split; [|split; [|split; [|split]]].
  - unfold create, Store.sort_in_place, Store.set, by_date, ArraySort.of_cmp.
    simpl. decide_reals. reflexivity.
  - rewrite calculateGoalMetrics_store. exact Hp.
  - unfold Goals.analyzeGoalOptimization.
    pose proof (calculateGoalMetrics_store 172800000 goal (fun _ => [p1; p0]) 0%nat) as H.
    destruct (Goals.calculateGoalMetrics _ _ _ _) as [st1 m]. simpl in *.
    rewrite H. exact Hp.
  - intro H. inversion H.
  - intro H. inversion H.
Qed.

(** The metrics depend on the samples only through their sorted order. *)
Lemma calculateGoalMetrics_sorted_input (now : Z) (goal : Goals.Goal)
    (st st' : Store.t Goals.GoalProgress) (l : Store.loc) :
  ArraySort.sort Goals.by_date (st l) = ArraySort.sort Goals.by_date (st' l) ->
  snd (Goals.calculateGoalMetrics now goal st l) =
  snd (Goals.calculateGoalMetrics now goal st' l).
Proof.
  intro Hs.
  assert (Hlen : length (st' l) = length (st l)).
  { rewrite <- (goal_sort_length (st l)), <- (goal_sort_length (st' l)), Hs.
    reflexivity. }
  unfold Goals.calculateGoalMetrics.
  rewrite !calculateAverageDailyProgress_eq, Hlen, <- Hs.
  destruct (Nat.ltb 1 (length (st l))) eqn:E1.
  - replace (Nat.ltb (length (st l)) 2) with false
      by (symmetry; apply Nat.ltb_ge; apply Nat.ltb_lt in E1; lia).
    destruct (Goals.progress_totals _) as [tp td].
    rewrite !calculateConsistencyScore_eq, !store_set_same, goal_sort_length,
      goal_sort_idempotent.
    destruct (Nat.ltb (length (st l)) 3); reflexivity.
  - rewrite !calculateConsistencyScore_eq, Hlen.
    replace (Nat.ltb (length (st l)) 3) with true
      by (symmetry; apply Nat.ltb_lt; apply Nat.ltb_ge in E1; lia).
    reflexivity.
Qed.

Lemma mood_sort_idempotent (xs : list MoodEntry) :
  ArraySort.sort by_date (ArraySort.sort by_date xs) = ArraySort.sort by_date xs.
Proof. apply sort_idempotent. intros a b. apply of_cmp_date_total. Qed.

(** C9 (counterexample): [calculateGoalMetrics] reads the clock; the same
    goal and samples at two instants one day apart give different
    [timeRemaining] (9 and 8 days). *)
Lemma calculateGoalMetrics_reads_clock :
  let goal := Goals.mkGoal 10 5 864000000 0 in
  Goals.timeRemaining (snd (Goals.calculateGoalMetrics 86400000 goal (fun _ => []) 0%nat))
  <> Goals.timeRemaining (snd (Goals.calculateGoalMetrics 172800000 goal (fun _ => []) 0%nat)).
Proof.
  intro goal. subst goal.
  unfold Goals.calculateGoalMetrics, Goals.calculateConsistencyScore.
  simpl. unfold msPerDay. decide_reals.
  rewrite !div_Num by lra. intro H. injection H. intro Hq.
  apply (f_equal (fun v => v * 86400000)) in Hq.
  unfold Rdiv in Hq. rewrite !Rmult_assoc, !Rinv_l in Hq by lra. lra.
Qed.

(** C9 (amended): for the same input and the same clock reading the
    analyses repeat exactly.  A second [calculateGoalMetrics] call on the
    samples array left behind by the first (which sorted it in place)
    returns the same metrics; an engine constructed a second time on the
    same caller array holds the same entries, so each analysis method
    (a function of those entries) returns the same result. *)
Theorem analyses_repeatable :
  (forall now goal st l,
     let r1 := Goals.calculateGoalMetrics now goal st l in
     snd (Goals.calculateGoalMetrics now goal (fst r1) l) = snd r1) /\
  (forall cfg st l,
     let r1 := create st l in
     let r2 := create (fst r1) l in
     fst r2 (entries (snd r2)) = fst r1 (entries (snd r1)) /\
     calculateCorrelations cfg (fst r2 (entries (snd r2))) =
       calculateCorrelations cfg (fst r1 (entries (snd r1))) /\
     analyzeTrends cfg (fst r2 (entries (snd r2))) =
       analyzeTrends cfg (fst r1 (entries (snd r1))) /\
     detectWeeklyPatterns (fst r2 (entries (snd r2))) =
       detectWeeklyPatterns (fst r1 (entries (snd r1)))).
Proof.
  split.
  - intros now goal st l r1. apply calculateGoalMetrics_sorted_input.
    unfold r1. rewrite calculateGoalMetrics_store.
    destruct (Nat.ltb 1 (length (st l))); [apply goal_sort_idempotent | reflexivity].
  - intros cfg st l r1 r2.
    assert (H : fst r2 (entries (snd r2)) = fst r1 (entries (snd r1))).
    { unfold r2, r1, create, Store.sort_in_place. simpl.
      rewrite !store_set_same. apply mood_sort_idempotent. }
    rewrite H. repeat split.
Qed.

(** ** Trends *)

Lemma timeIndices_finite (es : list MoodEntry) :
  exists tis, timeIndices es = map Num tis /\ length tis = length es.
Proof.
  destruct es as [|e0 es]; [exists []; split; reflexivity|].
  exists (map (fun e => IZR (date e - date e0) / 86400000) (e0 :: es)).
  split; [|apply length_map].
  unfold timeIndices, msPerDay. rewrite map_map.
  apply map_ext. intro e. apply div_Num. lra.
Qed.

Lemma linearRegression_slope (x y : list R) : length x = length y ->
  slope (linearRegression (map Num x) (map Num y)) =
  div (Num (INR (length x) * Rsumprod x y - Rsum x * Rsum y))
      (Num (INR (length x) * Rsumsq x - Rsum x * Rsum x)).
Proof.
  intro H. unfold linearRegression, sum, sumSq. cbv beta zeta. cbn [slope].
  rewrite length_map, sumXY_map_Num by exact H.
  rewrite !sum_map_Num, sumSq_map_Num, !mul_Num, !sub_Num, !Rplus_0_l.
  reflexivity.
Qed.

Lemma Rsumprod_invert (x : list R) : forall y, length x = length y ->
  Rsumprod x (map (fun a => 10 - a) y) = 10 * Rsum x - Rsumprod x y.
Proof.
  unfold Rsumprod, Rsum. induction x as [|u x IH]; intros [|w y] H;
    cbn [map combine fold_right length fst snd] in *; try discriminate.
  - ring.
  - rewrite IH by lia. ring.
Qed.

Lemma Rsum_invert (y : list R) :
  Rsum (map (fun a => 10 - a) y) = 10 * INR (length y) - Rsum y.
Proof.
  unfold Rsum. induction y as [|w y IH]; cbn [map fold_right length].
  - simpl. ring.
  - rewrite IH, S_INR. ring.
Qed.

Lemma in_analyzeTrends (cfg : AnalyticsConfig) (es : list MoodEntry) (m : Key) :
  (minEntriesForTrends cfg <= length es)%nat ->
  In (trend_of es m) (analyzeTrends cfg es).
Proof.
  intro H. unfold analyzeTrends.
  replace (Nat.ltb (length es) (minEntriesForTrends cfg)) with false
    by (symmetry; apply Nat.ltb_ge; exact H).
  eapply Permutation_in; [symmetry; apply sort_perm|].
  apply in_map. destruct m; simpl; tauto.
Qed.

(** C10: [analyzeTrends] regresses the inverted series [10 - stress] for
    the stress metric and the raw values for every other metric; a raw
    stress series rising by at least 0.1 a week is reported as a
    decreasing stress trend, and one falling by at least 0.1 a week as
    increasing. *)
Theorem analyzeTrends_stress_inverted (cfg : AnalyticsConfig) (es : list MoodEntry) :
  (minEntriesForTrends cfg <= length es)%nat ->
  In (trend_of_series es Kstress (map (fun e => Num (10 - stress e)) es))
     (analyzeTrends cfg es) /\
  (forall m, m <> Kstress ->
     In (trend_of_series es m (map (fun e => Num (field m e)) es))
        (analyzeTrends cfg es)) /\
  (forall s,
     slope (linearRegression (timeIndices es) (map (fun e => Num (stress e)) es)) = Num s ->
     (0.1 <= s * 7 -> exists t, In t (analyzeTrends cfg es) /\
                                metric t = Kstress /\ direction t = decreasing) /\
     (s * 7 <= -0.1 -> exists t, In t (analyzeTrends cfg es) /\
                                 metric t = Kstress /\ direction t = increasing)).
Proof.
  intro Hlen.
  pose proof (in_analyzeTrends cfg es Kstress Hlen) as Hst.
  split; [exact Hst|]. split.
  - intros m Hm. replace (trend_of_series es m (map (fun e => Num (field m e)) es))
      with (trend_of es m); [now apply in_analyzeTrends|].
    unfold trend_of, trend_of_series. f_equal.
    all: destruct m; try congruence; reflexivity.
  - intros s Hs.
    destruct (timeIndices_finite es) as [tis [Hti Htl]].
    rewrite Hti in Hs.
    replace (map (fun e => Num (stress e)) es) with (map Num (map stress es))
      in Hs by (rewrite map_map; reflexivity).
    assert (Hl : length tis = length (map stress es)) by (rewrite length_map; exact Htl).
    rewrite linearRegression_slope in Hs by exact Hl.
    set (n := INR (length tis)) in *.
    set (N := n * Rsumprod tis (map stress es) - Rsum tis * Rsum (map stress es)) in *.
    set (D := n * Rsumsq tis - Rsum tis * Rsum tis) in *.
    assert (HD : D <> 0).
    { intro HD. rewrite HD in Hs. simpl in Hs.
      destruct (Req_EM_T 0 0); [|congruence].
      destruct (Req_EM_T N 0); discriminate. }
    rewrite div_Num in Hs by exact HD. injection Hs as Hs.
    assert (Hinv : slope (linearRegression (timeIndices es)
              (map (fun e => getEntryValue e Kstress) es)) = Num (- s)).
    { rewrite Hti.
      replace (map (fun e => getEntryValue e Kstress) es)
        with (map Num (map (fun a => 10 - a) (map stress es)))
        by (rewrite !map_map; reflexivity).
      rewrite linearRegression_slope by (rewrite length_map; exact Hl).
      rewrite Rsumprod_invert by exact Hl. rewrite Rsum_invert, <- Hl.
      change (INR (length tis)) with n. change (n * Rsumsq tis - Rsum tis * Rsum tis) with D.
      rewrite div_Num by exact HD. f_equal. rewrite <- Hs. unfold N. field. exact HD. }
    split; intro Hw; exists (trend_of es Kstress);
      (split; [exact Hst|]); (split; [reflexivity|]);
      unfold trend_of; cbv zeta; cbn [direction]; rewrite Hinv, mul_Num;
      unfold direction_of, abs, lt; decide_reals.
  all: try reflexivity; exfalso;
    pose proof (Rle_abs (- s * 7)); pose proof (Rle_abs (- (- s * 7)));
    rewrite Rabs_Ropp in *; lra.
Qed.

Lemma analyzeTrends_stress_inverted_witness :
  (minEntriesForTrends DEFAULT_ANALYTICS_CONFIG <=
     length (map (fun k => mkEntry (Z.of_nat k * 86400000) 5 5 (INR k) 5 5 5 5) (seq 0 14)))%nat /\
  In (trend_of_series
        (map (fun k => mkEntry (Z.of_nat k * 86400000) 5 5 (INR k) 5 5 5 5) (seq 0 14))
        Kstress
        (map (fun e => Num (10 - stress e))
           (map (fun k => mkEntry (Z.of_nat k * 86400000) 5 5 (INR k) 5 5 5 5) (seq 0 14))))
     (analyzeTrends DEFAULT_ANALYTICS_CONFIG
        (map (fun k => mkEntry (Z.of_nat k * 86400000) 5 5 (INR k) 5 5 5 5) (seq 0 14))).
Proof.
  assert (H : (minEntriesForTrends DEFAULT_ANALYTICS_CONFIG <=
     length (map (fun k => mkEntry (Z.of_nat k * 86400000) 5 5 (INR k) 5 5 5 5) (seq 0 14)))%nat)
    by (simpl; lia).
  split; [exact H|].
  exact (proj1 (analyzeTrends_stress_inverted DEFAULT_ANALYTICS_CONFIG _ H)).
Defined.

(** ** Consistency score *)

Lemma max_Num (a b : R) : max (Num a) (Num b) = Num (Rmax a b).
Proof.
  unfold max, lt, Rmax. destruct (Rlt_dec a b), (Rle_dec a b); f_equal; lra.
Qed.

Lemma sqrt_Num (a : R) : 0 <= a -> sqrt (Num a) = Num (R_sqrt.sqrt a).
Proof. intro H. simpl. destruct (Rlt_dec a 0); [lra|reflexivity]. Qed.

Lemma dailyChanges_Num (sorted : list Goals.GoalProgress) :
  Goals.dailyChanges sorted = map Num (positive_deltas sorted).
Proof.
  unfold Goals.dailyChanges, positive_deltas. rewrite map_map.
  apply map_ext. intros [a b]. apply max_Num.
Qed.

Lemma adjacent_length {A} (xs : list A) : length (adjacent xs) = (length xs - 1)%nat.
Proof.
  induction xs as [|x [|y xs] IH]; try reflexivity.
  change (length (adjacent (x :: y :: xs))) with (S (length (adjacent (y :: xs)))).
  rewrite IH. simpl. lia.
Qed.

Lemma fold_sq_dev_Num (m : R) (l : list R) : forall a,
  fold_left (fun s v => add s (pow2 (sub v (Num m)))) (map Num l) (Num a) =
  Num (a + Rsum (map (fun v => (v - m) * (v - m)) l)).
Proof.
  induction l as [|v l IH]; intro a; simpl.
  - f_equal; ring.
  - rewrite IH. f_equal. unfold Rsum. simpl. ring.
Qed.

Lemma consistency_of_changes_Num (l : list R) : (0 < length l)%nat ->
  Goals.consistency_of_changes (map Num l) =
  if Rlt_dec 0 (meanR l) then Num (Rmax 0 (100 - stddevR l / meanR l * 100))
  else Num (Rmax 0 (100 - 1 * 100)).
Proof.
  intro Hl. assert (Hn : INR (length l) <> 0) by (apply not_0_INR; lia).
  unfold Goals.consistency_of_changes, sum. cbv zeta.
  rewrite length_map, sum_map_Num, Rplus_0_l, div_Num by exact Hn.
  rewrite fold_sq_dev_Num, Rplus_0_l, div_Num by exact Hn.
  rewrite sqrt_Num.
  2:{ apply Rmult_le_pos; [|left; apply Rinv_0_lt_compat, lt_0_INR; exact Hl].
      replace (map (fun v => (v - Rsum l / INR (length l)) * (v - Rsum l / INR (length l))) l)
        with (map (fun v => v * v) (map (fun v => v - Rsum l / INR (length l)) l))
        by (rewrite map_map; reflexivity).
      apply Rsumsq_nonneg. }
  change (Rsum l / INR (length l)) with (meanR l).
  change (R_sqrt.sqrt (Rsum (map (fun v => (v - meanR l) * (v - meanR l)) l) / INR (length l)))
    with (stddevR l).
  unfold lt at 1. destruct (Rlt_dec 0 (meanR l)) as [Hm|Hm].
  - rewrite div_Num by lra. now rewrite mul_Num, sub_Num, max_Num.
  - now rewrite mul_Num, sub_Num, max_Num.
Qed.

Lemma positive_deltas_nonneg (sorted : list Goals.GoalProgress) :
  Forall (fun v => 0 <= v) (positive_deltas sorted).
Proof.
  unfold positive_deltas. apply Forall_forall. intros v Hv.
  apply in_map_iff in Hv. destruct Hv as [[a b] [<- _]]. apply Rmax_l.
Qed.

Lemma Rsum_nonneg (l : list R) : Forall (fun v => 0 <= v) l -> 0 <= Rsum l.
Proof. unfold Rsum. induction 1; simpl; lra. Qed.

Lemma positive_deltas_length (sorted : list Goals.GoalProgress) :
  length (positive_deltas sorted) = (length sorted - 1)%nat.
Proof. unfold positive_deltas. now rewrite length_map, adjacent_length. Qed.

(** C8 (counterexample): three samples with the same value give deltas
    [0; 0].  The code falls back to [cv = 1] when the mean delta is not
    positive and scores 0; the claim's [stddev / mean] is [0 / 0 = NaN],
    which makes [max(0, 100 - CV * 100)] NaN. *)
Lemma consistency_flat_progress :
  let samples := [Goals.mkProgress 0 5; Goals.mkProgress 86400000 5;
                  Goals.mkProgress 172800000 5] in
  snd (Goals.calculateConsistencyScore (fun _ => samples) 0%nat) = Num 0 /\
  consistency_claimed samples = NaN.
Proof.
  intro samples.
  assert (Hs : ArraySort.sort Goals.by_date samples = samples).
  { subst samples. cbv [ArraySort.sort ArraySort.insert Goals.by_date ArraySort.of_cmp fold_right].
    do 4 (simpl; decide_reals); reflexivity. }
  assert (Hd : positive_deltas samples = [0; 0]).
  { subst samples. unfold positive_deltas. simpl.
    rewrite Rminus_diag, Rmax_left by lra. reflexivity. }
  split.
  - rewrite calculateConsistencyScore_eq. cbn [snd].
    change (Nat.ltb (length ((fun _ => samples) 0%nat)) 3) with false. cbv iota.
    change ((fun _ : Store.loc => samples) 0%nat) with samples.
    rewrite Hs, dailyChanges_Num, Hd, consistency_of_changes_Num by (simpl; lia).
    unfold meanR, Rsum. simpl. decide_reals.
    f_equal. rewrite Rmax_left; lra.
  - unfold consistency_claimed. change (Nat.ltb (length samples) 3) with false. cbv iota.
    rewrite Hs, Hd. cbv zeta. unfold sum. rewrite length_map, sum_map_Num.
    replace ((0 + Rsum [0; 0])) with 0 by (unfold Rsum; simpl; ring).
    rewrite div_Num by (simpl; lra). rewrite Rdiv_0_l, fold_sq_dev_Num.
    replace (0 + Rsum (map (fun v => (v - 0) * (v - 0)) [0; 0])) with 0
      by (unfold Rsum; simpl; ring).
    rewrite div_Num by (simpl; lra). rewrite Rdiv_0_l, sqrt_Num, sqrt_0 by lra.
    simpl. decide_reals. reflexivity.
Qed.

(** C8 (amended): below three samples the score is 50.  From three samples
    on, with [d] the positive-only deltas of the time-sorted samples, the
    mean of [d] is never negative; when it is positive the score is
    [max(0, 100 - stddev(d) / mean(d) * 100)], and when it is 0 (no sample
    ever rose) the code takes [CV = 1] and the score is 0. *)
Theorem calculateConsistencyScore_cases (st : Store.t Goals.GoalProgress) (l : Store.loc) :
  ((length (st l) < 3)%nat -> snd (Goals.calculateConsistencyScore st l) = Num 50) /\
  ((3 <= length (st l))%nat ->
   let d := positive_deltas (ArraySort.sort Goals.by_date (st l)) in
   0 <= meanR d /\
   (0 < meanR d -> snd (Goals.calculateConsistencyScore st l) =
                   Num (Rmax 0 (100 - stddevR d / meanR d * 100))) /\
   (meanR d = 0 -> snd (Goals.calculateConsistencyScore st l) = Num 0)).
Proof.
  rewrite calculateConsistencyScore_eq. split.
  - intro H. apply Nat.ltb_lt in H. now rewrite H.
  - intro H. cbv zeta.
    assert (Hb : Nat.ltb (length (st l)) 3 = false) by (apply Nat.ltb_ge; exact H).
    rewrite Hb. cbn [snd]. rewrite dailyChanges_Num.
    set (d := positive_deltas (ArraySort.sort Goals.by_date (st l))).
    assert (Hd : (0 < length d)%nat)
      by (unfold d; rewrite positive_deltas_length, goal_sort_length; lia).
    rewrite consistency_of_changes_Num by exact Hd.
    split; [|split].
    + unfold meanR, Rdiv. apply Rmult_le_pos.
      * apply Rsum_nonneg, positive_deltas_nonneg.
      * left. apply Rinv_0_lt_compat, lt_0_INR. exact Hd.
    + intro Hm. destruct (Rlt_dec 0 (meanR d)); [reflexivity|lra].
    + intro Hm. destruct (Rlt_dec 0 (meanR d)); [lra|].
      f_equal. unfold Rmax. destruct (Rle_dec 0 (100 - 1 * 100)); lra.
Qed.

Lemma calculateConsistencyScore_cases_witness :
  (3 <= length [Goals.mkProgress 0 0; Goals.mkProgress 86400000 1;
                Goals.mkProgress 172800000 3])%nat /\
  (let d := positive_deltas (ArraySort.sort Goals.by_date
              [Goals.mkProgress 0 0; Goals.mkProgress 86400000 1;
               Goals.mkProgress 172800000 3]) in
   0 <= meanR d /\
   (0 < meanR d -> snd (Goals.calculateConsistencyScore
       (fun _ => [Goals.mkProgress 0 0; Goals.mkProgress 86400000 1;
                  Goals.mkProgress 172800000 3]) 0%nat) =
     Num (Rmax 0 (100 - stddevR d / meanR d * 100))) /\
   (meanR d = 0 -> snd (Goals.calculateConsistencyScore
       (fun _ => [Goals.mkProgress 0 0; Goals.mkProgress 86400000 1;
                  Goals.mkProgress 172800000 3]) 0%nat) = Num 0)).
Proof.
  assert (H : (3 <= length [Goals.mkProgress 0 0; Goals.mkProgress 86400000 1;
                Goals.mkProgress 172800000 3])%nat) by (simpl; lia).
  split; [exact H|].
  exact (proj2 (calculateConsistencyScore_cases
    (fun _ => [Goals.mkProgress 0 0; Goals.mkProgress 86400000 1;
               Goals.mkProgress 172800000 3]) 0%nat) H).
Defined.

(** ** Weekly patterns *)

Lemma le_Num (a b : R) : le (Num a) (Num b) = if Rle_dec a b then true else false.
Proof.
  unfold le, lt. destruct (Rlt_dec b a), (Rle_dec a b); simpl; try reflexivity; lra.
Qed.

Lemma min_Num (a b : R) : min (Num a) (Num b) = Num (Rmin a b).
Proof.
  unfold min, lt, Rmin. destruct (Rlt_dec b a), (Rle_dec a b); f_equal; lra.
Qed.

Lemma fold_max_Num (ms : list R) : forall a,
  fold_left max (map Num ms) (Num a) = Num (fold_left Rmax ms a).
Proof. induction ms as [|m ms IH]; intro a; cbn [map fold_left]; [reflexivity|]. now rewrite max_Num, IH. Qed.

Lemma fold_min_Num (ms : list R) : forall a,
  fold_left min (map Num ms) (Num a) = Num (fold_left Rmin ms a).
Proof. induction ms as [|m ms IH]; intro a; cbn [map fold_left]; [reflexivity|]. now rewrite min_Num, IH. Qed.

Lemma max_list_Num (l : list R) : l <> [] -> max_list (map Num l) = Num (RmaxL l).
Proof.
  destruct l as [|m ms]; [congruence|]. intros _. unfold max_list. cbn [map fold_left].
  change (max (Inf true) (Num m)) with (Num m). apply fold_max_Num.
Qed.

Lemma min_list_Num (l : list R) : l <> [] -> min_list (map Num l) = Num (RminL l).
Proof.
  destruct l as [|m ms]; [congruence|]. intros _. unfold min_list. cbn [map fold_left].
  change (min (Inf false) (Num m)) with (Num m). apply fold_min_Num.
Qed.

Lemma day_moods_Num (es : list MoodEntry) (d : Weekday) :
  day_moods es d = map Num (day_moodsR es d).
Proof. unfold day_moods, day_moodsR. now rewrite map_map. Qed.

Lemma dayAverages_eq (es : list MoodEntry) :
  dayAverages es =
  map (fun d => mkDayAverage d (Num (day_meanR es d)) (length (day_moodsR es d)))
    (represented es).
Proof.
  unfold dayAverages, represented. generalize weekdays as ws.
  induction ws as [|d ws IH]; [reflexivity|].
  cbn [map filter count]. rewrite day_moods_Num, length_map.
  destruct (Nat.ltb 0 (length (day_moodsR es d))) eqn:E; cbn [map]; [|exact IH].
  rewrite IH. f_equal. f_equal. apply Nat.ltb_lt in E.
  unfold sum. rewrite sum_map_Num, Rplus_0_l, div_Num; [reflexivity|].
  apply not_0_INR. lia.
Qed.

Lemma map_day_filter {A} (g : Weekday -> A) (q : A -> bool) (get : A -> Weekday)
    (Hg : forall d, get (g d) = d) (ws : list Weekday) :
  map get (filter q (map g ws)) = filter (fun d => q (g d)) ws.
Proof.
  induction ws as [|d ws IH]; [reflexivity|]. cbn [map filter].
  destruct (q (g d)); cbn [map]; rewrite ?Hg; congruence.
Qed.

(** C7: for at least 14 entries covering at least 4 weekdays, a variation
    of the weekday mean moods (largest minus smallest) below 0.5 gives no
    pattern, and a variation of at least 0.5 gives one pattern whose peak
    days are the represented weekdays with a mean within 0.3 of the
    largest, whose low days are those within 0.3 of the smallest, and
    whose strength is [min(1, variation / 3)]. *)
Theorem detectWeeklyPatterns_threshold (es : list MoodEntry) :
  (14 <= length es)%nat -> (4 <= length (represented es))%nat ->
  (variationR es < 0.5 -> detectWeeklyPatterns es = []) /\
  (0.5 <= variationR es ->
   detectWeeklyPatterns es =
   [mkPattern (Num (variationR es)) (Num (Rmin 1 (variationR es / 3)))
      (peak_days_claimed es) (low_days_claimed es)]).
Proof.
  intros H14 H4. unfold detectWeeklyPatterns.
  replace (Nat.ltb (length es) 14) with false by (symmetry; apply Nat.ltb_ge; exact H14).
  cbv zeta. rewrite dayAverages_eq, length_map.
  replace (Nat.ltb (length (represented es)) 4) with false
    by (symmetry; apply Nat.ltb_ge; exact H4).
  rewrite map_map. cbn [average].
  replace (map (fun d => Num (day_meanR es d)) (represented es))
    with (map Num (map (day_meanR es) (represented es)))
    by (rewrite map_map; reflexivity).
  assert (Hne : map (day_meanR es) (represented es) <> []).
  { intro E. apply (f_equal (@length R)) in E. rewrite length_map in E. simpl in E. lia. }
  rewrite max_list_Num, min_list_Num, sub_Num by exact Hne.
  change (RmaxL (map (day_meanR es) (represented es))) with (weekday_max es).
  change (RminL (map (day_meanR es) (represented es))) with (weekday_min es).
  change (weekday_max es - weekday_min es) with (variationR es).
  change (lt (Num (variationR es)) (Num 0.5))
    with (if Rlt_dec (variationR es) 0.5 then true else false).
  split; intro Hv.
  - destruct (Rlt_dec (variationR es) 0.5); [reflexivity|lra].
  - destruct (Rlt_dec (variationR es) 0.5); [lra|].
    rewrite div_Num, min_Num by lra. f_equal. f_equal.
    + rewrite map_day_filter by reflexivity. unfold peak_days_claimed.
      apply filter_ext. intro d. cbn [average]. now rewrite sub_Num, le_Num.
    + rewrite map_day_filter by reflexivity. unfold low_days_claimed.
      apply filter_ext. intro d. cbn [average]. now rewrite add_Num, le_Num.
Qed.

Lemma detectWeeklyPatterns_threshold_witness :
  (14 <= length (map (fun k => mkEntry (Z.of_nat k * 86400000) (INR (k mod 7)) 5 5 5 5 5 5)
                   (seq 0 14)))%nat /\
  (4 <= length (represented
         (map (fun k => mkEntry (Z.of_nat k * 86400000) (INR (k mod 7)) 5 5 5 5 5 5)
            (seq 0 14))))%nat /\
  (0.5 <= variationR
            (map (fun k => mkEntry (Z.of_nat k * 86400000) (INR (k mod 7)) 5 5 5 5 5 5)
               (seq 0 14)) ->
   detectWeeklyPatterns
     (map (fun k => mkEntry (Z.of_nat k * 86400000) (INR (k mod 7)) 5 5 5 5 5 5) (seq 0 14)) =
   [mkPattern
      (Num (variationR (map (fun k => mkEntry (Z.of_nat k * 86400000) (INR (k mod 7)) 5 5 5 5 5 5)
                          (seq 0 14))))
      (Num (Rmin 1 (variationR (map (fun k => mkEntry (Z.of_nat k * 86400000) (INR (k mod 7))
                                                 5 5 5 5 5 5) (seq 0 14)) / 3)))
      (peak_days_claimed (map (fun k => mkEntry (Z.of_nat k * 86400000) (INR (k mod 7))
                                          5 5 5 5 5 5) (seq 0 14)))
      (low_days_claimed (map (fun k => mkEntry (Z.of_nat k * 86400000) (INR (k mod 7))
                                         5 5 5 5 5 5) (seq 0 14)))]).
Proof.
  assert (H1 : (14 <= length (map (fun k => mkEntry (Z.of_nat k * 86400000) (INR (k mod 7))
                  5 5 5 5 5 5) (seq 0 14)))%nat) by (simpl; lia).
  assert (H2 : (4 <= length (represented
         (map (fun k => mkEntry (Z.of_nat k * 86400000) (INR (k mod 7)) 5 5 5 5 5 5)
            (seq 0 14))))%nat) by (apply Nat.leb_le; reflexivity).
  split; [exact H1|]. split; [exact H2|].
  exact (proj2 (detectWeeklyPatterns_threshold _ H1 H2)).
Defined.

(** * Further properties of [GoalOptimizer] *)

Lemma calculateGoalMetrics_snd (now : Z) (goal : Goals.Goal)
    (st : Store.t Goals.GoalProgress) (l : Store.loc) :
  exists st1 dp,
    snd (Goals.calculateGoalMetrics now goal st l) =
    Goals.mkMetrics
      (mul (div (Num (Goals.currentValue goal)) (Num (Goals.targetValue goal))) (Num 100))
      (div (max (Num 0) (Num (IZR (Goals.deadline goal - now)))) msPerDay)
      dp
      (add (Num (IZR now))
         (mul (mul (mul (mul (div (Num (Goals.targetValue goal - Goals.currentValue goal))
                                   (max dp (Num 0.001))) (Num 24)) (Num 60)) (Num 60))
              (Num 1000)))
      (min (Num 100) (mul (div dp (Goals.theoreticalRate goal)) (Num 100)))
      (snd (Goals.calculateConsistencyScore st1 l)).
Proof.
  unfold Goals.calculateGoalMetrics. cbv zeta.
  match goal with |- context [let '(_, _) := ?e in _] => destruct e as [st1 dp] end.
  exists st1, dp.
  destruct (Goals.calculateConsistencyScore st1 l) as [st2 cs]. reflexivity.
Qed.

Lemma min_100_not_above (x : number) : lt (Num 100) (min (Num 100) x) = false.
Proof.
  destruct x as [b|[|]|]; simpl; try reflexivity.
  all: decide_reals; simpl; decide_reals; reflexivity.
Qed.

Lemma calculateConsistencyScore_range (st : Store.t Goals.GoalProgress) (l : Store.loc) :
  exists v, snd (Goals.calculateConsistencyScore st l) = Num v /\ 0 <= v <= 100.
Proof.
  rewrite calculateConsistencyScore_eq.
  destruct (Nat.ltb (length (st l)) 3) eqn:E.
  - exists 50. split; [reflexivity|lra].
  - apply Nat.ltb_ge in E. cbn [snd]. rewrite dailyChanges_Num.
    set (d := positive_deltas (ArraySort.sort Goals.by_date (st l))).
    assert (Hd : (0 < length d)%nat)
      by (unfold d; rewrite positive_deltas_length, goal_sort_length; lia).
    rewrite consistency_of_changes_Num by exact Hd.
    destruct (Rlt_dec 0 (meanR d)) as [Hm|Hm].
    + eexists. split; [reflexivity|].
      assert (0 <= stddevR d / meanR d).
      { unfold Rdiv. apply Rmult_le_pos; [apply sqrt_pos|left; now apply Rinv_0_lt_compat]. }
      split; [apply Rmax_l|]. apply Rmax_lub; lra.
    + eexists. split; [reflexivity|].
      split; [apply Rmax_l|]. apply Rmax_lub; lra.
Qed.

(** [calculateGoalMetrics]: the days remaining are a number that is never
    negative, equal to the whole days to the deadline before it and 0 from
    the deadline on; the efficiency score never exceeds 100; the
    consistency score is always a number between 0 and 100. *)
Theorem calculateGoalMetrics_ranges (now : Z) (goal : Goals.Goal)
    (st : Store.t Goals.GoalProgress) (l : Store.loc) :
  let m := snd (Goals.calculateGoalMetrics now goal st l) in
  (exists v, Goals.timeRemaining m = Num v /\ 0 <= v /\
     ((Goals.deadline goal <= now)%Z -> v = 0) /\
     ((now < Goals.deadline goal)%Z -> v = IZR (Goals.deadline goal - now) / 86400000)) /\
  lt (Num 100) (Goals.efficiencyScore m) = false /\
  (exists v, Goals.consistencyScore m = Num v /\ 0 <= v <= 100).
Proof.
  destruct (calculateGoalMetrics_snd now goal st l) as [st1 [dp ->]]. cbv zeta.
  cbn [Goals.timeRemaining Goals.efficiencyScore Goals.consistencyScore].
  split; [|split; [apply min_100_not_above|apply calculateConsistencyScore_range]].
  rewrite max_Num. unfold msPerDay. rewrite div_Num by lra.
  eexists. split; [reflexivity|]. split; [|split].
  - unfold Rdiv. apply Rmult_le_pos; [apply Rmax_l|lra].
  - intro H. rewrite Rmax_left; [lra|]. apply IZR_le. lia.
  - intro H. rewrite Rmax_right; [reflexivity|]. apply IZR_le. lia.
Qed.

Lemma last_cons_default {A} (y : A) (s : list A) (d1 d2 : A) :
  last (y :: s) d1 = last (y :: s) d2.
Proof.
  revert y. induction s as [|z s IH]; intro y; [reflexivity|].
  change (last (z :: s) d1 = last (z :: s) d2). apply IH.
Qed.

Lemma last_cons_In {A} (y : A) (s : list A) (d : A) : In (last (y :: s) d) (y :: s).
Proof.
  revert y. induction s as [|z s IH]; intro y; [now left|].
  change (In (last (z :: s) d) (y :: z :: s)). right. apply IH.
Qed.

Lemma lt_Num_true (a b : R) : a < b -> lt (Num a) (Num b) = true.
Proof. intro H. simpl. now destruct (Rlt_dec a b). Qed.

Lemma progress_totals_strict (x : Goals.GoalProgress) (s : list Goals.GoalProgress) :
  Sorted (fun a b => (Goals.date a < Goals.date b)%Z) (x :: s) ->
  forall a b,
  fold_left
    (fun '(totalProgress, totalDays) '(prev, cur) =>
       let progress := Num (Goals.value cur - Goals.value prev) in
       let days := div (Num (IZR (Goals.date cur - Goals.date prev))) msPerDay in
       if lt (Num 0) days
       then (add totalProgress progress, add totalDays days)
       else (totalProgress, totalDays))
    (adjacent (x :: s)) (Num a, Num b) =
  (Num (a + (Goals.value (last (x :: s) x) - Goals.value x)),
   Num (b + IZR (Goals.date (last (x :: s) x) - Goals.date x) / 86400000)).
Proof.
  revert x. induction s as [|y s IH]; intros x Hs a b.
  - cbn. f_equal; f_equal; rewrite ?Z.sub_diag; unfold Rdiv; ring.
  - change (adjacent (x :: y :: s)) with ((x, y) :: adjacent (y :: s)).
    cbn [fold_left]. inversion Hs as [|? ? Hs' Hhd]; subst.
    inversion Hhd as [|? ? Hxy]; subst.
    unfold msPerDay. rewrite div_Num by lra.
    assert (Hp : 0 < IZR (Goals.date y - Goals.date x) / 86400000).
    { apply Rdiv_lt_0_compat; [apply IZR_lt; lia|lra]. }
    rewrite (lt_Num_true _ _ Hp), add_Num, add_Num.
    cbv zeta in IH. unfold msPerDay in IH. rewrite IH by exact Hs'.
    change (last (x :: y :: s) x) with (last (y :: s) x).
    rewrite (last_cons_default y s x y). f_equal; f_equal; rewrite ?minus_IZR; field.
Qed.

Lemma sorted_nodup_strict (s : list Goals.GoalProgress) :
  Sorted (fun a b => Goals.by_date a b = true) s -> NoDup (map Goals.date s) ->
  Sorted (fun a b => (Goals.date a < Goals.date b)%Z) s.
Proof.
  induction 1 as [|x s Hs IH Hhd]; intro Hnd; [constructor|].
  inversion Hnd as [|? ? Hnin Hnd']; subst. constructor; [now apply IH|].
  destruct Hhd as [|y s' Hxy]; constructor.
  unfold Goals.by_date, ArraySort.of_cmp, lt in Hxy.
  destruct (Rlt_dec 0 _) as [|Hn]; [discriminate|].
  assert (Hle : (Goals.date x <= Goals.date y)%Z).
  { apply Z.sub_nonpos. apply le_IZR. lra. }
  assert (Goals.date x <> Goals.date y) by (intro E; apply Hnin; rewrite E; now left).
  lia.
Qed.

(** [calculateAverageDailyProgress]: when the samples have pairwise
    different dates, the average daily progress telescopes to the change
    from the earliest to the latest sample over the days between them. *)
Theorem calculateAverageDailyProgress_telescopes (st : Store.t Goals.GoalProgress)
    (l : Store.loc) :
  (2 <= length (st l))%nat -> NoDup (map Goals.date (st l)) ->
  let s := ArraySort.sort Goals.by_date (st l) in
  let first := hd (Goals.mkProgress 0 0) s in
  let latest := last s (Goals.mkProgress 0 0) in
  snd (Goals.calculateAverageDailyProgress st l) =
  Num ((Goals.value latest - Goals.value first) /
       (IZR (Goals.date latest - Goals.date first) / 86400000)).
Proof.
  intros H2 Hnd. cbv zeta.
  rewrite calculateAverageDailyProgress_eq.
  replace (Nat.ltb (length (st l)) 2) with false by (symmetry; apply Nat.ltb_ge; exact H2).
  cbn [snd].
  assert (Hsorted : Sorted (fun a b => Goals.by_date a b = true)
                      (ArraySort.sort Goals.by_date (st l))).
  { apply sort_sorted. intros a b. apply of_cmp_date_total. }
  assert (Hnd' : NoDup (map Goals.date (ArraySort.sort Goals.by_date (st l)))).
  { eapply Permutation_NoDup; [|exact Hnd]. apply Permutation_map.
    symmetry. apply sort_perm. }
  pose proof (sorted_nodup_strict _ Hsorted Hnd') as Hstrict.
  pose proof (goal_sort_length (st l)) as Hlen.
  destruct (ArraySort.sort Goals.by_date (st l)) as [|x s] eqn:Es;
    [simpl in Hlen; lia|].
  unfold Goals.progress_totals. rewrite progress_totals_strict by exact Hstrict.
  destruct s as [|y s]; [simpl in Hlen; lia|].
  assert (Hlast : (Goals.date x < Goals.date (last (x :: y :: s) x))%Z).
  { clear -Hstrict. apply Sorted_StronglySorted in Hstrict;
      [|intros a b c; lia].
    assert (In (last (x :: y :: s) x) (y :: s)).
    { change (last (x :: y :: s) x) with (last (y :: s) x). apply last_cons_In. }
    inversion Hstrict as [|? ? _ Hall]; subst.
    rewrite Forall_forall in Hall. now apply Hall. }
  assert (Hl : last (x :: y :: s) x = last (x :: y :: s) (Goals.mkProgress 0 0)).
  { change (last (y :: s) x = last (y :: s) (Goals.mkProgress 0 0)).
    apply last_cons_default. }
  rewrite <- Hl. cbn [hd].
  assert (Hp : 0 < IZR (Goals.date (last (x :: y :: s) x) - Goals.date x) / 86400000).
  { apply Rdiv_lt_0_compat; [apply IZR_lt; lia|lra]. }
  rewrite !Rplus_0_l. unfold lt. decide_reals.
  apply div_Num. lra.
Qed.

Lemma calculateAverageDailyProgress_telescopes_witness :
  (2 <= length ((fun _ : Store.loc => [Goals.mkProgress 86400000 3; Goals.mkProgress 0 1]) 0%nat))%nat /\
  NoDup (map Goals.date ((fun _ : Store.loc => [Goals.mkProgress 86400000 3; Goals.mkProgress 0 1]) 0%nat)) /\
  (let s := ArraySort.sort Goals.by_date
              ((fun _ : Store.loc => [Goals.mkProgress 86400000 3; Goals.mkProgress 0 1]) 0%nat) in
   let first := hd (Goals.mkProgress 0 0) s in
   let latest := last s (Goals.mkProgress 0 0) in
   snd (Goals.calculateAverageDailyProgress
          (fun _ : Store.loc => [Goals.mkProgress 86400000 3; Goals.mkProgress 0 1]) 0%nat) =
   Num ((Goals.value latest - Goals.value first) /
        (IZR (Goals.date latest - Goals.date first) / 86400000))).
Proof.
  assert (H1 : (2 <= length ((fun _ : Store.loc => [Goals.mkProgress 86400000 3;
                  Goals.mkProgress 0 1]) 0%nat))%nat) by (simpl; lia).
  assert (H2 : NoDup (map Goals.date ((fun _ : Store.loc => [Goals.mkProgress 86400000 3;
                  Goals.mkProgress 0 1]) 0%nat))).
  { simpl. constructor; [simpl; intros [H|[]]; discriminate|].
    constructor; [intros []|constructor]. }
  split; [exact H1|]. split; [exact H2|].
  exact (calculateAverageDailyProgress_telescopes _ 0%nat H1 H2).
Defined.

Lemma length_filter_zero {A} (f : A -> bool) (l : list A) :
  length (filter f l) = 0%nat <-> Forall (fun x => f x = false) l.
Proof.
  induction l as [|x l IH]; simpl; [split; constructor|].
  destruct (f x) eqn:E; simpl; split; intro H.
  - discriminate.
  - inversion H; congruence.
  - constructor; [exact E|]. now apply IH.
  - inversion H; subst. now apply IH.
Qed.

(** [identifyBottlenecks]: no bottleneck is reported twice, and the
    stagnation bottleneck is reported exactly when there is at least one
    sample and every sample is at least 7 days older than the current time
    (a sample dated in the future counts as recent). *)
Theorem identifyBottlenecks_stagnation (now : Z) (metrics : Goals.GoalMetrics)
    (progressData : list Goals.GoalProgress) :
  NoDup (Goals.identifyBottlenecks now metrics progressData) /\
  (In Goals.ProgressStagnation (Goals.identifyBottlenecks now metrics progressData) <->
   progressData <> [] /\
   Forall (fun p => (7 * 24 * 60 * 60 * 1000 <= now - Goals.date p)%Z) progressData).
Proof.
  unfold Goals.identifyBottlenecks. cbv zeta.
  set (recent := length (filter _ progressData)).
  assert (Hr : Nat.eqb recent 0 = true <->
               Forall (fun p => (7 * 24 * 60 * 60 * 1000 <= now - Goals.date p)%Z) progressData).
  { rewrite Nat.eqb_eq. unfold recent. rewrite length_filter_zero.
    split; intro H; eapply Forall_impl; try exact H; intros p Hp; simpl in *.
    - apply Z.ltb_ge in Hp. lia.
    - apply Z.ltb_ge. lia. }
  split.
  - destruct (lt (Goals.efficiencyScore metrics) (Num 50)),
      (lt (Goals.consistencyScore metrics) (Num 40)),
      (lt (Goals.timeRemaining metrics) (Num 7) && lt (Goals.completionRate metrics) (Num 80)),
      (Nat.eqb recent 0 && Nat.ltb 0 (length progressData));
      simpl; repeat constructor; simpl; intuition discriminate.
  - assert (Hpos : Nat.ltb 0 (length progressData) = true <-> progressData <> []).
    { rewrite Nat.ltb_lt. destruct progressData; simpl; split; intro H;
        try lia; try congruence. }
    destruct (lt (Goals.efficiencyScore metrics) (Num 50)),
      (lt (Goals.consistencyScore metrics) (Num 40)),
      (lt (Goals.timeRemaining metrics) (Num 7) && lt (Goals.completionRate metrics) (Num 80));
      simpl;
      destruct (Nat.eqb recent 0) eqn:E1, (Nat.ltb 0 (length progressData)) eqn:E2; simpl;
      rewrite <- Hr, <- Hpos; intuition (try discriminate; try congruence).
Qed.


(** * Properties of the callers *)

Lemma bottleneck_type_message (b : Goals.Bottleneck) :
  Dashboard.bottleneck_type (Dashboard.bottleneck_message b) =
  match b with
  | Goals.ProgressStagnation => "Progress Stagnation"%string
  | _ => "Other"%string
  end.
Proof. destruct b; vm_compute; reflexivity. Qed.

Lemma fold_invariant {S A} (f : S -> A -> S) (I : S -> Prop) :
  (forall s a, I s -> I (f s a)) -> forall l s, I s -> I (fold_left f l s).
Proof. intros Hf l. induction l as [|a l IH]; intros s Hs; simpl; auto. Qed.

Lemma bump_keys (ty : String.string) (m : list (String.string * nat)) (k : String.string) :
  In k (map fst (Dashboard.bump ty m)) -> k = ty \/ In k (map fst m).
Proof.
  induction m as [|[k' c] m IH]; simpl.
  - intuition.
  - destruct (String.eqb k' ty); simpl; intuition.
Qed.

(** [bottleneckAnalysis] of the dashboard: none of the bottleneck strings
    of [identifyBottlenecks] contains "efficiency", "consistency" or
    "time", so the only types it ever reports are "Progress Stagnation"
    and "Other"; "Low Efficiency", "Poor Consistency" and "Time Pressure"
    never appear. *)
Theorem bottleneckAnalysis_types (st : Store.t Goals.GoalProgress)
    (filteredGoals : list (Goals.Goal * option Store.loc * Z)) :
  Forall (fun '(ty, _, _) =>
            ty = "Progress Stagnation"%string \/ ty = "Other"%string)
    (Dashboard.bottleneckAnalysis st filteredGoals).
Proof.
  unfold Dashboard.bottleneckAnalysis.
  set (P := fun k : String.string => k = "Progress Stagnation"%string \/ k = "Other"%string).
  assert (Hstep : forall bs m, Forall P (map fst m) ->
     Forall P (map fst (fold_left (fun m b =>
        Dashboard.bump (Dashboard.bottleneck_type (Dashboard.bottleneck_message b)) m) bs m))).
  { induction bs as [|b bs IH]; intros m Hm; simpl; [exact Hm|]. apply IH.
    apply Forall_forall. intros k Hk. apply bump_keys in Hk. destruct Hk as [->|Hk].
    - rewrite bottleneck_type_message. unfold P. destruct b; auto.
    - rewrite Forall_forall in Hm. now apply Hm. }
  match goal with |- context [fold_left ?f filteredGoals (st, [])] =>
    assert (Hfold : Forall P (map fst (snd (fold_left f filteredGoals (st, [])))));
    [apply (fold_invariant f (fun s => Forall P (map fst (snd s))));
     [|constructor]|] end.
  { intros [st0 m] [[goal ol] now] Hm. cbn beta iota.
    destruct (match ol with
              | Some l => Goals.analyzeGoalOptimization now goal st0 l
              | None => (st0, snd (Goals.analyzeGoalOptimization now goal (fun _ => []) 0%nat))
              end) as [st' analysis].
    apply Hstep, Hm. }
  destruct (fold_left _ filteredGoals (st, [])) as [st' types]. simpl in Hfold.
  apply Forall_forall. intros [[ty c] pct] Hin.
  apply in_map_iff in Hin. destruct Hin as [[ty' c'] [E Hin]]. injection E as <- <- _.
  rewrite Forall_forall in Hfold. apply Hfold.
  apply in_map_iff. exists (ty', c'). auto.
Qed.


Lemma sum_field_Num (k : Key) (es : list MoodEntry) : forall a,
  fold_left (fun s e => add s (Num (field k e))) es (Num a) =
  Num (a + Rsum (map (field k) es)).
Proof.
  induction es as [|e es IH]; intro a; simpl.
  - f_equal; unfold Rsum; simpl; ring.
  - rewrite IH. f_equal. unfold Rsum. simpl. ring.
Qed.

Lemma sum_field_mean (k : Key) (es : list MoodEntry) : es <> [] ->
  div (sum_field k es) (Num (INR (length es))) = Num (meanR (map (field k) es)).
Proof.
  intro H. unfold sum_field, meanR. rewrite sum_field_Num, Rplus_0_l, length_map.
  apply div_Num. apply not_0_INR. destruct es; [congruence|discriminate].
Qed.





(** ** [calculateWellnessMetrics] *)

Lemma js_slice_last {A} (xs : list A) (k : Z) : (0 < k)%Z ->
  js_slice xs (- k)%Z None = skipn (length xs - Z.to_nat k) xs.
Proof.
  intro Hk. unfold js_slice.
  replace (- k <? 0)%Z with true by (symmetry; apply Z.ltb_lt; lia).
  replace (Z.to_nat (Z.max (Z.of_nat (length xs) + - k) 0))
    with (length xs - Z.to_nat k)%nat by lia.
  apply firstn_all2. rewrite length_skipn. lia.
Qed.

Lemma js_slice_window {A} (xs : list A) (a b : Z) : (0 < b <= a)%Z ->
  js_slice xs (- a)%Z (Some (- b)%Z) =
  skipn (length xs - Z.to_nat a) (firstn (length xs - Z.to_nat b) xs).
Proof.
  intro Hab. unfold js_slice.
  replace (- a <? 0)%Z with true by (symmetry; apply Z.ltb_lt; lia).
  replace (- b <? 0)%Z with true by (symmetry; apply Z.ltb_lt; lia).
  rewrite skipn_firstn_comm.
  replace (Z.to_nat (Z.max (Z.of_nat (length xs) + - a) 0))
    with (length xs - Z.to_nat a)%nat by lia.
  f_equal. lia.
Qed.

Lemma wellness_windows_length (es : list MoodEntry) :
  length (skipn (length es - 14) es) = Nat.min 14 (length es) /\
  length (skipn (length es - 28) (firstn (length es - 14) es)) =
    ((length es - 14) - (length es - 28))%nat.
Proof.
  rewrite !length_skipn, length_firstn. split; lia.
Qed.

Lemma wellness_recent (es : list MoodEntry) :
  js_slice es (-14) None = skipn (length es - 14) es.
Proof. exact (js_slice_last es 14 ltac:(lia)). Qed.

Lemma wellness_older (es : list MoodEntry) :
  js_slice es (-28) (Some (-14)%Z) = skipn (length es - 28) (firstn (length es - 14) es).
Proof. exact (js_slice_window es 28 14 ltac:(lia)). Qed.

Lemma meanR_mood (xs : list MoodEntry) : xs <> [] ->
  div (sum_field Kmood xs) (Num (INR (length xs))) = Num (meanR (map mood xs)).
Proof. apply sum_field_mean. Qed.

(** [calculateWellnessMetrics]: the consistency score is
    [min(100, n / 30 * 100)] for [n] entries (0 for no entries), and it
    reaches 100 exactly from 30 entries on. *)
Theorem calculateWellnessMetrics_consistency (es : list MoodEntry) :
  w_consistencyScore (calculateWellnessMetrics es) =
    Num (Rmin 100 (INR (length es) / 30 * 100)) /\
  (w_consistencyScore (calculateWellnessMetrics es) = Num 100 <->
     (30 <= length es)%nat).
Proof.
  assert (Hc : w_consistencyScore (calculateWellnessMetrics es) =
                 Num (Rmin 100 (INR (length es) / 30 * 100))).
  { unfold calculateWellnessMetrics. destruct (Nat.eqb (length es) 0) eqn:E.
    - apply Nat.eqb_eq in E. rewrite E. simpl. f_equal.
      unfold Rmin. destruct (Rle_dec 100 (0 / 30 * 100)); lra.
    - cbn [w_consistencyScore]. rewrite div_Num by lra. rewrite mul_Num, min_Num.
      reflexivity. }
  split; [exact Hc|]. rewrite Hc.
  assert (H30 : (30 <= length es)%nat <-> 30 <= INR (length es)).
  { split; intro H.
    - replace 30 with (INR 30) by (simpl; lra). now apply le_INR.
    - apply INR_le. replace (INR 30) with 30 by (simpl; lra). exact H. }
  rewrite H30. unfold Rmin.
  destruct (Rle_dec 100 (INR (length es) / 30 * 100)); split; intro H;
    try reflexivity; try (injection H as H); lra.
Qed.

(** [calculateWellnessMetrics]: with fewer than 21 entries the window of
    the previous two weeks ([slice(-28, -14)]) holds fewer than 7 entries,
    so the improvement trend is always "stable". *)
Theorem calculateWellnessMetrics_short_stable (es : list MoodEntry) :
  (length es < 21)%nat -> improvementTrend (calculateWellnessMetrics es) = trend_stable.
Proof.
  intro H. unfold calculateWellnessMetrics.
  destruct (Nat.eqb (length es) 0); [reflexivity|]. cbv zeta. cbn [improvementTrend].
  rewrite wellness_older.
  destruct (wellness_windows_length es) as [_ Ho].
  replace (Nat.leb 7 (length (skipn (length es - 28) (firstn (length es - 14) es))))
    with false by (symmetry; apply Nat.leb_gt; rewrite Ho; lia).
  now rewrite andb_false_r.
Qed.

Lemma calculateWellnessMetrics_short_stable_witness :
  (length (map (fun n => mkEntry (Z.of_nat n) 5 5 5 5 5 5 5) (seq 0 20)) < 21)%nat /\
  improvementTrend
    (calculateWellnessMetrics (map (fun n => mkEntry (Z.of_nat n) 5 5 5 5 5 5 5) (seq 0 20)))
  = trend_stable.
Proof.
  split; [simpl; lia|].
  apply calculateWellnessMetrics_short_stable. simpl; lia.
Defined.

(** [calculateWellnessMetrics]: from 21 entries on, with [recent] the last
    14 entries and [older] the (up to 14) entries before them, the trend is
    "improving" exactly when the mean mood of [recent] exceeds that of
    [older] by more than 0.3, and "declining" exactly when it falls short
    of it by more than 0.3. *)
Theorem calculateWellnessMetrics_trend (es : list MoodEntry) :
  (21 <= length es)%nat ->
  let recent := skipn (length es - 14) es in
  let older := skipn (length es - 28) (firstn (length es - 14) es) in
  (improvementTrend (calculateWellnessMetrics es) = trend_improving <->
     meanR (map mood older) + 0.3 < meanR (map mood recent)) /\
  (improvementTrend (calculateWellnessMetrics es) = trend_declining <->
     meanR (map mood recent) < meanR (map mood older) - 0.3).
Proof.
  intro H. cbv zeta. unfold calculateWellnessMetrics.
  replace (Nat.eqb (length es) 0) with false by (symmetry; apply Nat.eqb_neq; lia).
  cbv zeta. cbn [improvementTrend].
  rewrite wellness_older, wellness_recent.
  destruct (wellness_windows_length es) as [Hr Ho].
  replace (Nat.leb 7 (length (skipn (length es - 14) es))) with true
    by (symmetry; apply Nat.leb_le; rewrite Hr; lia).
  replace (Nat.leb 7 (length (skipn (length es - 28) (firstn (length es - 14) es))))
    with true by (symmetry; apply Nat.leb_le; rewrite Ho; lia).
  cbn [andb].
  rewrite !meanR_mood.
  2, 3: intro E; apply (f_equal (@length _)) in E; cbn [length] in E; lia.
  rewrite add_Num, sub_Num.
  set (o := meanR (map mood (skipn (length es - 28) (firstn (length es - 14) es)))).
  set (r := meanR (map mood (skipn (length es - 14) es))).
  unfold lt. decide_reals; split; split; intro Hx;
    try reflexivity; try discriminate; lra.
Qed.

Lemma calculateWellnessMetrics_trend_witness :
  (21 <= length (map (fun n => mkEntry (Z.of_nat n) (INR n) 5 5 5 5 5 5) (seq 0 21)))%nat /\
  (let es := map (fun n => mkEntry (Z.of_nat n) (INR n) 5 5 5 5 5 5) (seq 0 21) in
   let recent := skipn (length es - 14) es in
   let older := skipn (length es - 28) (firstn (length es - 14) es) in
   (improvementTrend (calculateWellnessMetrics es) = trend_improving <->
      meanR (map mood older) + 0.3 < meanR (map mood recent)) /\
   (improvementTrend (calculateWellnessMetrics es) = trend_declining <->
      meanR (map mood recent) < meanR (map mood older) - 0.3)).
Proof.
  split; [simpl; lia|].
  apply calculateWellnessMetrics_trend. simpl; lia.
Defined.

(** ** [generateAdvancedInsights] *)

Lemma recent_seven (es : list MoodEntry) :
  js_slice es (-7) None = skipn (length es - 7) es.
Proof. exact (js_slice_last es 7 ltac:(lia)). Qed.

(** The average mood of the last 7 entries, or 5 without entries. *)
Lemma avgRecentMood_eq (es : list MoodEntry) :
  (if Nat.ltb 0 (length (js_slice es (-7) None))
   then div (sum_field Kmood (js_slice es (-7) None))
          (Num (INR (length (js_slice es (-7) None))))
   else Num 5) =
  match es with
  | [] => Num 5
  | _ => Num (meanR (map mood (skipn (length es - 7) es)))
  end.
Proof.
  rewrite recent_seven. destruct es as [|e es']; [reflexivity|].
  set (es := e :: es').
  assert (Hl : (0 < length (skipn (length es - 7) es))%nat)
    by (rewrite length_skipn; unfold es; cbn [length]; lia).
  replace (Nat.ltb 0 (length (skipn (length es - 7) es))) with true
    by (symmetry; apply Nat.ltb_lt; exact Hl).
  apply meanR_mood. intro E. rewrite E in Hl. simpl in Hl. lia.
Qed.

Lemma clamp_1_10 (x : number) :
  (x = NaN /\ max (Num 1) (min (Num 10) x) = NaN) \/
  (x <> NaN /\ exists v, max (Num 1) (min (Num 10) x) = Num v /\ 1 <= v <= 10).
Proof.
  destruct x as [a|[|]|]; [right|right|right|left; split; reflexivity].
  all: split; [discriminate|].
  - simpl. decide_reals; simpl; decide_reals; eexists; (split; [reflexivity|lra]).
  - exists 1. split; [simpl; reflexivity|lra].
  - exists 10. split; [|lra]. simpl. decide_reals. reflexivity.
Qed.

(** [generateAdvancedInsights]: the confidence of the prediction is
    [min(90, 3 n)] for [n] entries; it never exceeds 90 and reaches 90
    exactly from 30 entries on. *)
Theorem generateAdvancedInsights_confidence (cfg : AnalyticsConfig) (es : list MoodEntry) :
  let c := confidence (predictions (generateAdvancedInsights cfg es)) in
  c = Num (Rmin 90 (INR (length es) * 3)) /\ (c = Num 90 <-> (30 <= length es)%nat).
Proof.
  cbv zeta. unfold generateAdvancedInsights. cbv zeta. cbn [predictions confidence].
  rewrite mul_Num, min_Num. split; [reflexivity|].
  assert (H30 : (30 <= length es)%nat <-> 30 <= INR (length es)).
  { split; intro H.
    - replace 30 with (INR 30) by (simpl; lra). now apply le_INR.
    - apply INR_le. replace (INR 30) with 30 by (simpl; lra). exact H. }
  rewrite H30. unfold Rmin.
  destruct (Rle_dec 90 (INR (length es) * 3)); split; intro H;
    try reflexivity; try (injection H as H); lra.
Qed.

(** [generateAdvancedInsights]: with fewer entries than [analyzeTrends]
    needs there is no mood trend, so the predicted mood is the average
    mood of the last 7 entries (5 without entries) and the prediction is
    based on the first three correlation factors only. *)
Theorem generateAdvancedInsights_without_trend (cfg : AnalyticsConfig) (es : list MoodEntry) :
  (length es < minEntriesForTrends cfg)%nat ->
  let p := predictions (generateAdvancedInsights cfg es) in
  nextWeekMood p =
    match es with
    | [] => Num 5
    | _ => Num (meanR (map mood (skipn (length es - 7) es)))
    end /\
  basedOn p = map (fun c => basis_factor (factor c)) (firstn 3 (calculateCorrelations cfg es)).
Proof.
  intro H. cbv zeta. unfold generateAdvancedInsights. cbv zeta.
  assert (Ht : analyzeTrends cfg es = []).
  { unfold analyzeTrends.
    replace (Nat.ltb (length es) (minEntriesForTrends cfg)) with true
      by (symmetry; apply Nat.ltb_lt; exact H).
    reflexivity. }
  rewrite Ht. cbn [find predictions nextWeekMood basedOn]. rewrite app_nil_r.
  split; [apply avgRecentMood_eq|reflexivity].
Qed.

Lemma generateAdvancedInsights_without_trend_witness :
  (length [mkEntry 0 7 5 5 5 5 5 5; mkEntry 86400000 8 5 5 5 5 5 5] <
     minEntriesForTrends DEFAULT_ANALYTICS_CONFIG)%nat /\
  (let es := [mkEntry 0 7 5 5 5 5 5 5; mkEntry 86400000 8 5 5 5 5 5 5] in
   let p := predictions (generateAdvancedInsights DEFAULT_ANALYTICS_CONFIG es) in
   nextWeekMood p =
     match es with
     | [] => Num 5
     | _ => Num (meanR (map mood (skipn (length es - 7) es)))
     end /\
   basedOn p = map (fun c => basis_factor (factor c))
                 (firstn 3 (calculateCorrelations DEFAULT_ANALYTICS_CONFIG es))).
Proof.
  split; [simpl; lia|].
  apply generateAdvancedInsights_without_trend. simpl; lia.
Defined.

(** [generateAdvancedInsights]: once [analyzeTrends] runs, it always finds
    the mood trend [t]; the prediction is based on the first three
    correlation factors and then on [t]'s direction, and the predicted mood
    is NaN exactly when [t]'s magnitude is NaN and otherwise lies between
    1 and 10. *)
Theorem generateAdvancedInsights_with_trend (cfg : AnalyticsConfig) (es : list MoodEntry) :
  (minEntriesForTrends cfg <= length es)%nat ->
  let p := predictions (generateAdvancedInsights cfg es) in
  exists t, In t (analyzeTrends cfg es) /\ metric t = Kmood /\
    basedOn p = map (fun c => basis_factor (factor c)) (firstn 3 (calculateCorrelations cfg es))
                ++ [basis_trend (direction t)] /\
    ((magnitude t = NaN /\ nextWeekMood p = NaN) \/
     (magnitude t <> NaN /\ exists v, nextWeekMood p = Num v /\ 1 <= v <= 10)).
Proof.
  intro H. cbv zeta. unfold generateAdvancedInsights. cbv zeta.
  destruct (find (fun t => key_eqb (metric t) Kmood) (analyzeTrends cfg es)) as [t|] eqn:F.
  - apply find_some in F as [Hin Hk].
    exists t. split; [exact Hin|]. split; [destruct (metric t); try discriminate; reflexivity|].
    cbn [predictions nextWeekMood basedOn]. split; [reflexivity|].
    rewrite avgRecentMood_eq.
    assert (Ha : exists a, match es with
                           | [] => Num 5
                           | _ => Num (meanR (map mood (skipn (length es - 7) es)))
                           end = Num a) by (destruct es; eexists; reflexivity).
    destruct Ha as [a Ha]. rewrite Ha.
    set (sg := if direction_eqb (direction t) increasing then Num 1 else Num (-1)).
    assert (Hsg : exists g, sg = Num g /\ g <> 0)
      by (unfold sg; destruct (direction_eqb _ _); eexists; split; [reflexivity|lra|reflexivity|lra]).
    destruct Hsg as [g [Hg Hg0]]. rewrite Hg.
    destruct (magnitude t) as [b|s|] eqn:Hm.
    + right. split; [discriminate|]. rewrite mul_Num, add_Num.
      destruct (clamp_1_10 (Num (a + b * g))) as [[C _]|[_ C]]; [discriminate|exact C].
    + right. split; [discriminate|].
      destruct (clamp_1_10 (add (Num a) (mul (Inf s) (Num g)))) as [[C _]|[_ C]]; [|exact C].
      simpl in C. destruct (Req_EM_T g 0); [lra|discriminate].
    + left. split; reflexivity.
  - exfalso. pose proof (in_analyzeTrends cfg es Kmood H) as Hin.
    pose proof (find_none _ _ F _ Hin) as C. discriminate.
Qed.

Lemma generateAdvancedInsights_with_trend_witness :
  (minEntriesForTrends DEFAULT_ANALYTICS_CONFIG <=
     length (map (fun n => mkEntry (Z.of_nat n * 86400000) (INR n) 5 5 5 5 5 5) (seq 0 14)))%nat /\
  (let es := map (fun n => mkEntry (Z.of_nat n * 86400000) (INR n) 5 5 5 5 5 5) (seq 0 14) in
   let p := predictions (generateAdvancedInsights DEFAULT_ANALYTICS_CONFIG es) in
   exists t, In t (analyzeTrends DEFAULT_ANALYTICS_CONFIG es) /\ metric t = Kmood /\
     basedOn p = map (fun c => basis_factor (factor c))
                   (firstn 3 (calculateCorrelations DEFAULT_ANALYTICS_CONFIG es))
                 ++ [basis_trend (direction t)] /\
     ((magnitude t = NaN /\ nextWeekMood p = NaN) \/
      (magnitude t <> NaN /\ exists v, nextWeekMood p = Num v /\ 1 <= v <= 10))).
Proof.
  split; [simpl; lia|].
  apply generateAdvancedInsights_with_trend. simpl; lia.
Defined.

(** ** Shapes of [calculateCorrelations] and [analyzeTrends] *)

(** [sub(x, y) > 0] is [y < x], for every pair of JavaScript numbers. *)
Lemma lt_0_sub (x y : number) : lt (Num 0) (sub x y) = lt y x.
Proof.
  destruct x as [a|[|]|], y as [b|[|]|]; unfold sub; simpl; try reflexivity.
  decide_reals; reflexivity.
Qed.

Lemma lt_asym (x y : number) : lt x y = true -> lt y x = false.
Proof.
  destruct x as [a|[|]|], y as [b|[|]|]; simpl; try discriminate; try reflexivity.
  destruct (Rlt_dec a b), (Rlt_dec b a); intro H;
    first [reflexivity | discriminate | lra].
Qed.

(** A comparator [(a, b) => g(b) - g(a)] sorts by non-increasing [g]. *)
Lemma of_cmp_desc {A} (g : A -> number) (a b : A) :
  ArraySort.of_cmp (fun a b => sub (g b) (g a)) a b = negb (lt (g a) (g b)).
Proof. unfold ArraySort.of_cmp. now rewrite lt_0_sub. Qed.

Lemma of_cmp_desc_total {A} (g : A -> number) (a b : A) :
  ArraySort.of_cmp (fun a b => sub (g b) (g a)) a b = false ->
  ArraySort.of_cmp (fun a b => sub (g b) (g a)) b a = true.
Proof.
  rewrite !of_cmp_desc. intro H. apply negb_false_iff in H.
  now rewrite (lt_asym _ _ H).
Qed.

Lemma Sorted_weaken {A} (R1 R2 : A -> A -> Prop) :
  (forall a b, R1 a b -> R2 a b) -> forall l, Sorted R1 l -> Sorted R2 l.
Proof.
  intros H l Hs. induction Hs as [|a l Hl IH Hhd]; constructor; [exact IH|].
  destruct Hhd; constructor. now apply H.
Qed.

Lemma sort_desc_sorted {A} (g : A -> number) (l : list A) :
  Sorted (fun a b => lt (g a) (g b) = false)
    (ArraySort.sort (ArraySort.of_cmp (fun a b => sub (g b) (g a))) l).
Proof.
  eapply Sorted_weaken; [|apply sort_sorted; apply of_cmp_desc_total].
  intros a b H. cbv beta in H. unfold ArraySort.of_cmp in H.
  rewrite lt_0_sub in H. now apply negb_true_iff.
Qed.

Lemma Forall_sort {A} (before : A -> A -> bool) (P : A -> Prop) (l : list A) :
  Forall P l -> Forall P (ArraySort.sort before l).
Proof.
  rewrite !Forall_forall. intros H x Hx. apply H.
  eapply Permutation_in; [apply sort_perm|exact Hx].
Qed.

(** [calculateCorrelations]: once there are enough entries, it reports one
    correlation for each of the six factors (energy, stress, sleep,
    hydration, exercise, nutrition), each over all the entries and with the
    interpretation of its own coefficient, ordered so that no coefficient is
    followed by one of larger absolute value. *)
Theorem calculateCorrelations_shape (cfg : AnalyticsConfig) (es : list MoodEntry) :
  (minEntriesForCorrelation cfg <= length es)%nat ->
  let cs := calculateCorrelations cfg es in
  Permutation (map factor cs) correlation_factors /\
  Forall (fun c => sampleSize c = length es /\
                   interpretation c = interpret cfg (correlation c)) cs /\
  Sorted (fun a b => lt (abs (correlation a)) (abs (correlation b)) = false) cs.
Proof.
  intro H. cbv zeta. unfold calculateCorrelations.
  replace (Nat.ltb (length es) (minEntriesForCorrelation cfg)) with false
    by (symmetry; apply Nat.ltb_ge; exact H).
  split; [|split].
  - etransitivity; [apply Permutation_map, sort_perm|].
    rewrite map_map. reflexivity.
  - apply Forall_sort. unfold correlation_factors. cbn [map].
    repeat constructor; cbn [sampleSize n pearsonCorrelation];
      unfold pearsonCorrelation; rewrite !length_map;
      destruct (Nat.ltb (length es) 3); reflexivity.
  - apply (sort_desc_sorted (fun c => abs (correlation c))).
Qed.

Lemma calculateCorrelations_shape_witness :
  (minEntriesForCorrelation DEFAULT_ANALYTICS_CONFIG <=
     length (map (fun n => mkEntry (Z.of_nat n) (INR n) 5 5 5 5 5 5) (seq 0 7)))%nat /\
  (let es := map (fun n => mkEntry (Z.of_nat n) (INR n) 5 5 5 5 5 5) (seq 0 7) in
   let cs := calculateCorrelations DEFAULT_ANALYTICS_CONFIG es in
   Permutation (map factor cs) correlation_factors /\
   Forall (fun c => sampleSize c = length es /\
                    interpretation c = interpret DEFAULT_ANALYTICS_CONFIG (correlation c)) cs /\
   Sorted (fun a b => lt (abs (correlation a)) (abs (correlation b)) = false) cs).
Proof.
  split; [simpl; lia|].
  apply calculateCorrelations_shape. simpl; lia.
Defined.



(** ** Entries that all carry the same date *)

Lemma reduce_idx_NaN (f : number -> nat -> number) (l : list number) :
  forall i, reduce_idx f i l NaN = NaN.
Proof. induction l as [|v l IH]; intro i; simpl; [reflexivity|apply IH]. Qed.

Lemma sub_NaN_r (z : number) : sub z NaN = NaN.
Proof. destruct z; reflexivity. Qed.

(** A NaN slope makes the intercept, every prediction and so [R^2] NaN. *)
Lemma linearRegression_r2_NaN (x y : list number) :
  slope (linearRegression x y) = NaN -> r2 (linearRegression x y) = NaN.
Proof.
  unfold linearRegression. cbv zeta. cbn [slope r2]. intro H. rewrite H.
  cbn [mul]. rewrite sub_NaN_r. cbn [div].
  destruct y as [|v y]; cbn [reduce_idx fold_left].
  - simpl. decide_reals. reflexivity.
  - cbn [add mul]. rewrite sub_NaN_r. cbn [pow2 mul add].
    destruct v as [a|s|]; cbn [add]; rewrite reduce_idx_NaN; reflexivity.
Qed.

Lemma Rsumprod_zero_l {A} (l : list A) : forall ys,
  Rsumprod (map (fun _ => 0) l) ys = 0.
Proof.
  unfold Rsumprod, Rsum. induction l as [|a l IH]; intros [|y ys];
    cbn [map combine fold_right fst snd]; try reflexivity.
  rewrite IH. ring.
Qed.

Lemma Rsum_const_map {A} (l : list A) (c : R) :
  Rsum (map (fun _ => c) l) = INR (length l) * c.
Proof.
  unfold Rsum. induction l as [|a l IH]; cbn [map fold_right length].
  - simpl. ring.
  - rewrite IH, S_INR. ring.
Qed.

Lemma entry_values_Num (es : list MoodEntry) (m : Key) :
  map (fun e => getEntryValue e m) es =
  map Num (map (fun e => match m with Kstress => 10 - stress e | _ => field m e end) es).
Proof. rewrite map_map. apply map_ext. intro e. destruct m; reflexivity. Qed.

(** [analyzeTrends]: when every entry has the same date, all the time
    indices are 0, so the regression slope is [0/0]: every trend comes out
    "decreasing" with a NaN magnitude and a NaN R^2. *)
Theorem analyzeTrends_same_date (cfg : AnalyticsConfig) (es : list MoodEntry) (d : Z) :
  Forall (fun e => date e = d) es ->
  Forall (fun t => direction t = decreasing /\ magnitude t = NaN /\ t_significance t = NaN)
    (analyzeTrends cfg es).
Proof.
  intro H. unfold analyzeTrends.
  destruct (Nat.ltb (length es) (minEntriesForTrends cfg)); [constructor|].
  apply Forall_sort. apply Forall_forall. intros t Ht.
  apply in_map_iff in Ht as [m [<- _]].
  assert (Hti : timeIndices es = map Num (map (fun _ => 0) es)).
  { rewrite map_map. destruct es as [|e0 es']; [reflexivity|].
    unfold timeIndices. apply map_ext_in. intros e He.
    rewrite Forall_forall in H. rewrite (H e He), (H e0 (or_introl eq_refl)), Z.sub_diag.
    unfold msPerDay. rewrite div_Num by lra. f_equal. unfold Rdiv. ring. }
  assert (Hs : slope (linearRegression (timeIndices es) (map (fun e => getEntryValue e m) es))
               = NaN).
  { rewrite Hti, entry_values_Num, linearRegression_slope by (rewrite !length_map; reflexivity).
    unfold Rsumsq. rewrite Rsumprod_zero_l, map_map, !Rsum_const_map.
    match goal with |- div (Num ?a) (Num ?b) = NaN =>
      replace a with 0 by ring; replace b with 0 by ring end.
    simpl. decide_reals. reflexivity. }
  unfold trend_of. cbn [direction magnitude t_significance].
  rewrite (linearRegression_r2_NaN _ _ Hs), Hs. simpl. repeat split.
Qed.

Lemma analyzeTrends_same_date_witness :
  Forall (fun e => date e = 0%Z)
    (map (fun n => mkEntry 0 (INR n) 5 5 5 5 5 5) (seq 0 14)) /\
  Forall (fun t => direction t = decreasing /\ magnitude t = NaN /\ t_significance t = NaN)
    (analyzeTrends DEFAULT_ANALYTICS_CONFIG
       (map (fun n => mkEntry 0 (INR n) 5 5 5 5 5 5) (seq 0 14))).
Proof.
  assert (H : Forall (fun e => date e = 0%Z)
                (map (fun n => mkEntry 0 (INR n) 5 5 5 5 5 5) (seq 0 14)))
    by (simpl; repeat constructor).
  split; [exact H|].
  exact (analyzeTrends_same_date DEFAULT_ANALYTICS_CONFIG _ 0 H).
Defined.

(** ** [generateOptimizations] *)

Lemma suggestion_for_category (k : Key) (c : number) (s : OptimizationSuggestion) :
  suggestion_for k c = Some s -> k <> Kmood /\ category s = category_of k.
Proof.
  destruct k; simpl; intro H; try discriminate; injection H as <-;
    (split; [discriminate|reflexivity]).
Qed.

Lemma category_of_inj (k1 k2 : Key) :
  k1 <> Kmood -> k2 <> Kmood -> category_of k1 = category_of k2 -> k1 = k2.
Proof. destruct k1, k2; simpl; intros; congruence. Qed.

Lemma suggestion_cmp_total (a b : OptimizationSuggestion) :
  ArraySort.of_cmp suggestion_cmp a b = false -> ArraySort.of_cmp suggestion_cmp b a = true.
Proof.
  unfold ArraySort.of_cmp, suggestion_cmp. rewrite Nat.eqb_sym.
  destruct (Nat.eqb (s_priority b) (s_priority a)); cbn [negb].
  - rewrite !lt_0_sub. intro H. apply negb_false_iff in H. now rewrite (lt_asym _ _ H).
  - simpl. destruct (Rlt_dec 0 (INR (s_priority a) - INR (s_priority b)));
      destruct (Rlt_dec 0 (INR (s_priority b) - INR (s_priority a)));
      simpl; intro H; first [reflexivity | discriminate | lra].
Qed.

Lemma suggestion_cmp_priority (a b : OptimizationSuggestion) :
  ArraySort.of_cmp suggestion_cmp a b = true -> (s_priority a <= s_priority b)%nat.
Proof.
  unfold ArraySort.of_cmp, suggestion_cmp.
  destruct (Nat.eqb (s_priority a) (s_priority b)) eqn:E; cbn [negb].
  - intros _. apply Nat.eqb_eq in E. lia.
  - simpl. destruct (Rlt_dec 0 (INR (s_priority a) - INR (s_priority b))) as [|Hn];
      simpl; intro H; [discriminate|].
    apply INR_le. lra.
Qed.

Lemma in_suggestions (cfg : AnalyticsConfig) (cs : list CorrelationData)
    (s : OptimizationSuggestion) :
  In s (flat_map (fun corr =>
      if le (Num (weak cfg)) (abs (correlation corr)) &&
         lt (significance corr) (Num (confidenceThreshold cfg))
      then match suggestion_for (factor corr) (correlation corr) with
           | Some s => [s]
           | None => []
           end
      else []) cs) ->
  exists c, In c cs /\
    le (Num (weak cfg)) (abs (correlation c)) = true /\
    lt (significance c) (Num (confidenceThreshold cfg)) = true /\
    suggestion_for (factor c) (correlation c) = Some s.
Proof.
  intro H. apply in_flat_map in H as [c [Hc Hs]]. exists c. split; [exact Hc|].
  destruct (le _ _), (lt _ _); cbn [andb] in Hs; try contradiction.
  destruct (suggestion_for (factor c) (correlation c)) as [s'|]; [|contradiction].
  destruct Hs as [<-|[]]. repeat split.
Qed.

Lemma suggestions_categories_NoDup (cfg : AnalyticsConfig) (cs : list CorrelationData) :
  NoDup (map factor cs) ->
  NoDup (map category (flat_map (fun corr =>
      if le (Num (weak cfg)) (abs (correlation corr)) &&
         lt (significance corr) (Num (confidenceThreshold cfg))
      then match suggestion_for (factor corr) (correlation corr) with
           | Some s => [s]
           | None => []
           end
      else []) cs)).
Proof.
  induction cs as [|c cs IH]; intro Hnd; [constructor|].
  inversion Hnd as [|? ? Hnin Hnd']; subst.
  cbn [flat_map]. rewrite map_app.
  destruct (le _ _ && lt _ _); [|exact (IH Hnd')].
  destruct (suggestion_for (factor c) (correlation c)) as [s|] eqn:Hs; [|exact (IH Hnd')].
  cbn [app map]. constructor; [|exact (IH Hnd')].
  intro Hin. apply in_map_iff in Hin as [s' [Hcat Hs']].
  apply in_suggestions in Hs' as [c' [Hc' [_ [_ Hs'']]]].
  destruct (suggestion_for_category _ _ _ Hs) as [Hk Hcs].
  destruct (suggestion_for_category _ _ _ Hs'') as [Hk' Hcs'].
  apply Hnin. rewrite (category_of_inj (factor c) (factor c') Hk Hk') by congruence.
  now apply in_map.
Qed.

Lemma calculateCorrelations_factors_NoDup (cfg : AnalyticsConfig) (es : list MoodEntry) :
  NoDup (map factor (calculateCorrelations cfg es)).
Proof.
  unfold calculateCorrelations. destruct (Nat.ltb _ _); [constructor|].
  eapply Permutation_NoDup; [symmetry; apply Permutation_map, sort_perm|].
  rewrite map_map. cbn [map correlation_factors factor].
  repeat constructor; simpl; intuition discriminate.
Qed.

(** [generateOptimizations]: the suggestions come out in non-decreasing
    priority; each comes from a correlation of [calculateCorrelations]
    whose coefficient is at least the weak threshold in absolute value and
    whose p-value is below the confidence threshold, through the [switch]
    on its factor; and no two suggestions share a category. *)
Theorem generateOptimizations_props (cfg : AnalyticsConfig) (es : list MoodEntry) :
  let ss := generateOptimizations cfg es in
  Sorted (fun a b => (s_priority a <= s_priority b)%nat) ss /\
  Forall (fun s => exists c, In c (calculateCorrelations cfg es) /\
            le (Num (weak cfg)) (abs (correlation c)) = true /\
            lt (significance c) (Num (confidenceThreshold cfg)) = true /\
            suggestion_for (factor c) (correlation c) = Some s) ss /\
  NoDup (map category ss).
Proof.
  cbv zeta. unfold generateOptimizations. cbv zeta. split; [|split].
  - eapply Sorted_weaken; [|apply sort_sorted; apply suggestion_cmp_total].
    exact suggestion_cmp_priority.
  - apply Forall_sort. apply Forall_forall. intros s Hs. now apply in_suggestions.
  - eapply Permutation_NoDup; [symmetry; apply Permutation_map, sort_perm|].
    apply suggestions_categories_NoDup, calculateCorrelations_factors_NoDup.
Qed.

(** ** [pearsonCorrelation] with a vanishing denominator *)

(** [pearsonCorrelation]: from 3 values on, a zero product-moment
    denominator gives [r = 0], hence [t = 0], [x = df / df = 1] in
    [tTestPValue], and [betaIncomplete] returns [p = 1]. *)
Theorem pearsonCorrelation_degenerate_p (x y : list number) :
  (3 <= length x)%nat -> pearson_denominator x y = Num 0 ->
  pearsonCorrelation x y = mkPearson (Num 0) (Num 1) (length x).
Proof.
  intros H3 Hd. unfold pearsonCorrelation.
  replace (Nat.ltb (length x) 3) with false by (symmetry; apply Nat.ltb_ge; exact H3).
  cbv zeta. rewrite Hd.
  assert (Hn : 3 <= INR (length x)).
  { replace 3 with (INR 3) by (simpl; lra). now apply le_INR. }
  set (n := INR (length x)) in *.
  cbn [eqb]. decide_reals. cbn [abs]. rewrite Rabs_R0.
  rewrite mul_Num, !sub_Num, div_Num by lra. rewrite sqrt_Num.
  2: { apply Rlt_le, Rdiv_lt_0_compat; lra. }
  unfold tTestPValue. rewrite !mul_Num, add_Num, !Rmult_0_l, Rplus_0_r.
  rewrite (div_Num (n - 2) (n - 2)) by lra. rewrite Rdiv_diag by lra.
  unfold betaIncomplete. cbn [le lt]. decide_reals. reflexivity.
Qed.

Lemma pearsonCorrelation_degenerate_p_witness :
  (3 <= length [Num 1; Num 1; Num 1])%nat /\
  pearson_denominator [Num 1; Num 1; Num 1] [Num 2; Num 5; Num 7] = Num 0 /\
  pearsonCorrelation [Num 1; Num 1; Num 1] [Num 2; Num 5; Num 7] =
    mkPearson (Num 0) (Num 1) (length [Num 1; Num 1; Num 1]).
Proof.
  assert (Hd : pearson_denominator [Num 1; Num 1; Num 1] [Num 2; Num 5; Num 7] = Num 0).
  { unfold pearson_denominator, sumSq, sum, JsNum.sqrt. simpl.
    match goal with |- context [Rlt_dec ?a 0] => replace a with 0 by ring end.
    decide_reals. f_equal. apply sqrt_0. }
  assert (H3 : (3 <= length [Num 1; Num 1; Num 1])%nat) by (simpl; lia).
  split; [exact H3|]. split; [exact Hd|].
  exact (pearsonCorrelation_degenerate_p _ _ H3 Hd).
Defined.

(** ** [detectWeeklyPatterns] on few weekdays *)

(** [detectWeeklyPatterns]: entries that fall on at most three different
    weekdays never yield a pattern, however many there are. *)
Theorem detectWeeklyPatterns_few_weekdays (es : list MoodEntry) :
  (length (represented es) < 4)%nat -> detectWeeklyPatterns es = [].
Proof.
  intro H. unfold detectWeeklyPatterns.
  destruct (Nat.ltb (length es) 14); [reflexivity|].
  cbv zeta. rewrite dayAverages_eq, length_map.
  replace (Nat.ltb (length (represented es)) 4) with true
    by (symmetry; apply Nat.ltb_lt; exact H).
  reflexivity.
Qed.

Lemma detectWeeklyPatterns_few_weekdays_witness :
  (length (represented (map (fun n => mkEntry (Z.of_nat (7 * n) * 86400000) (INR n) 5 5 5 5 5 5)
                          (seq 0 20))) < 4)%nat /\
  detectWeeklyPatterns (map (fun n => mkEntry (Z.of_nat (7 * n) * 86400000) (INR n) 5 5 5 5 5 5)
                          (seq 0 20)) = [].
Proof.
  assert (H : (length (represented (map (fun n => mkEntry (Z.of_nat (7 * n) * 86400000)
                 (INR n) 5 5 5 5 5 5) (seq 0 20))) < 4)%nat) by (vm_compute; lia).
  split; [exact H|]. exact (detectWeeklyPatterns_few_weekdays _ H).
Defined.
